(** * libosinfo: the device association index of an operating system entity

    A shallow embedding of [osinfo/osinfo_os.c].  GObject instances live in
    a heap indexed by address; a C pointer is an optional address, with
    [NULL] the absent one.  The private state of an [OsinfoOs] is the pair
    of a hash table from platform identifiers to lists of device links and
    a list of platform-independent device links. *)

From stdpp Require Import gmap strings list fin_maps.

Set Warnings "-notation-for-abbreviation".

(** ** Pointers and objects *)

Notation gpointer := (option positive).
Notation NULL := (@None positive).

(** A [GList] of pointers; the empty list is the C [NULL] list. *)
Notation GList := (list (option positive)).

(** [struct _OsinfoOsPrivate] *)
Record OsinfoOsPrivate := mkOsinfoOsPrivate {
  (* Key: platform id, Value: list of device links *)
  platforms : gmap string GList;
  (* list of device links *)
  deviceLinks : GList
}.

(** The instances the file deals with.  Every entity carries its "id"
    property; a device link has its target and its optional driver name (the
    two fields of [struct _OsinfoOsDeviceLink]); a filter has its property
    constraints.  [GObjectOther] stands for an instance of any other type. *)
Inductive GObject :=
| OsinfoOs (id : string) (priv : OsinfoOsPrivate)
| OsinfoPlatform (id : string)
| OsinfoDevice (id : string)
| OsinfoDeviceLink (target : gpointer) (driver : option string)
| OsinfoFilter (constraints : list (string * string))
| GObjectOther.

Notation heap := (gmap positive GObject).

Definition deref (h : heap) (p : gpointer) : option GObject :=
  match p with
  | Some a => h !! a
  | None => None
  end.

(** [!p] on a pointer *)
Definition is_null (p : gpointer) : bool :=
  match p with
  | None => true
  | Some _ => false
  end.

(** ** Instance type checks: false on [NULL] and on any other instance *)

Definition OSINFO_IS_OS (h : heap) (p : gpointer) : bool :=
  match deref h p with
  | Some (OsinfoOs _ _) => true
  | _ => false
  end.

Definition OSINFO_IS_PLATFORM (h : heap) (p : gpointer) : bool :=
  match deref h p with
  | Some (OsinfoPlatform _) => true
  | _ => false
  end.

Definition OSINFO_IS_DEVICE (h : heap) (p : gpointer) : bool :=
  match deref h p with
  | Some (OsinfoDevice _) => true
  | _ => false
  end.

Definition OSINFO_IS_DEVICELINK (h : heap) (p : gpointer) : bool :=
  match deref h p with
  | Some (OsinfoDeviceLink _ _) => true
  | _ => false
  end.

Definition OSINFO_IS_FILTER (h : heap) (p : gpointer) : bool :=
  match deref h p with
  | Some (OsinfoFilter _) => true
  | _ => false
  end.

(** ** Outcome of a call guarded by [g_return_val_if_fail]

    A failed check logs a critical warning and returns the given value at
    once; [Critical] keeps that value and records that the warning was
    logged, [Return] is the ordinary return. *)
Inductive checked (A : Type) :=
| Critical (val : A)
| Return (val : A).
Arguments Critical {A} val.
Arguments Return {A} val.

(** The value the C caller receives. *)
Definition retval {A} (c : checked A) : A :=
  match c with
  | Critical v => v
  | Return v => v
  end.

Definition g_return_val_if_fail {A} (expr : bool) (val : A)
    (rest : checked A) : checked A :=
  if expr then rest else Critical val.

(** ** GLib containers *)

Definition g_list_append (list : GList) (data : gpointer) : GList :=
  list ++ [data].

(** A missing key gives the [NULL] list. *)
Definition g_hash_table_lookup (table : gmap string GList) (key : string)
    : GList :=
  match table !! key with
  | Some value => value
  | None => []
  end.

(** [Some origValue] when the key is there (the C function returns TRUE
    and fills [origKey] and [origValue]), [None] when it is not (FALSE). *)
Definition g_hash_table_lookup_extended (table : gmap string GList)
    (key : string) : option GList :=
  table !! key.

(** Removes the key without calling the destroy functions. *)
Definition g_hash_table_steal (table : gmap string GList) (key : string)
    : gmap string GList :=
  delete key table.

Definition g_hash_table_insert (table : gmap string GList) (key : string)
    (value : GList) : gmap string GList :=
  <[key := value]> table.

(** ** Collaborators of the file *)

(** Modelled from the spec: [osinfo_entity_get_id] is not in the source
    file; an entity has an identifier string, which is all the index reads
    of a platform.  The empty string stands for the result on a pointer
    that is not an entity, which no caller below passes. *)
Definition osinfo_entity_get_id (h : heap) (p : gpointer) : string :=
  match deref h p with
  | Some (OsinfoOs id _) => id
  | Some (OsinfoPlatform id) => id
  | Some (OsinfoDevice id) => id
  | _ => ""
  end.

(** Modelled from the spec: [osinfo_devicelink_get_target] is not in the
    source file; the target of an association is the device it links, and a
    pointer that is not a device link has none. *)
Definition osinfo_devicelink_get_target (h : heap) (link : gpointer)
    : gpointer :=
  match deref h link with
  | Some (OsinfoDeviceLink target _) => target
  | _ => NULL
  end.

(** [g_object_new]: the new instance takes an address that is not in use. *)
Definition g_object_new (o : GObject) (h : heap) : gpointer * heap :=
  let a := fresh (dom h) in
  (Some a, <[a := o]> h).

(** Modelled from the spec: [osinfo_devicelink_new] is not in the source
    file; it constructs a new association wrapping the device, driver left
    unset. *)
Definition osinfo_devicelink_new (dev : gpointer) (h : heap)
    : gpointer * heap :=
  g_object_new (OsinfoDeviceLink dev None) h.

(** Modelled from the spec: [osinfo_list_add] is not in the source file; the
    result list is a generic ordered container, and adding puts the entity
    at its end.  A result list is kept by value: [Some l] is the pointer to
    a newly made list holding [l]. *)
Definition osinfo_list_add (list : GList) (entity : gpointer) : GList :=
  list ++ [entity].

Definition osinfo_devicelist_new : GList := [].
Definition osinfo_devicelinklist_new : GList := [].

(** [os->priv] *)
Definition os_priv (h : heap) (os : gpointer) : OsinfoOsPrivate :=
  match deref h os with
  | Some (OsinfoOs _ priv) => priv
  | _ => mkOsinfoOsPrivate ∅ []
  end.

(** Store into the fields of [os->priv]. *)
Definition set_os_priv (os : gpointer) (priv : OsinfoOsPrivate) (h : heap)
    : heap :=
  match os, deref h os with
  | Some a, Some (OsinfoOs id _) => <[a := OsinfoOs id priv]> h
  | _, _ => h
  end.

(** ** [osinfo_os_init] and [osinfo_os_new] *)

Definition osinfo_os_init : OsinfoOsPrivate :=
  {| deviceLinks := [];
     platforms := ∅ |}.

Definition osinfo_os_new (id : string) (h : heap) : gpointer * heap :=
  g_object_new (OsinfoOs id osinfo_os_init) h.

Section Os.

(** The filter evaluator is a collaborator: [osinfo_filter_matches h filter
    entity] tells whether the entity at [entity] satisfies the filter at
    [filter] in heap [h]. *)
Variable osinfo_filter_matches : heap → gpointer → gpointer → bool.

(** ** [osinfo_os_get_preferred_device_link] *)

(** The [while (tmp)] loop. *)
Fixpoint preferred_device_link_loop (h : heap) (filter : gpointer)
    (tmp : GList) : gpointer :=
  match tmp with
  | [] => NULL
  | data :: next =>
      let link := data in
      let dev := osinfo_devicelink_get_target h link in
      if is_null filter || osinfo_filter_matches h filter dev
      then link
      else preferred_device_link_loop h filter next
  end.

Definition osinfo_os_get_preferred_device_link (h : heap)
    (os platform filter : gpointer) : checked gpointer :=
  g_return_val_if_fail (OSINFO_IS_OS h os) NULL (
  g_return_val_if_fail (is_null platform || OSINFO_IS_PLATFORM h platform) NULL (
  g_return_val_if_fail (OSINFO_IS_FILTER h filter) NULL (
    let tmp :=
      if negb (is_null platform)
      then g_hash_table_lookup (platforms (os_priv h os))
             (osinfo_entity_get_id h platform)
      else deviceLinks (os_priv h os) in
    Return (preferred_device_link_loop h filter tmp)))).

(** ** [osinfo_os_get_preferred_device] *)

Definition osinfo_os_get_preferred_device (h : heap)
    (os platform filter : gpointer) : checked gpointer :=
  g_return_val_if_fail (OSINFO_IS_OS h os) NULL (
  g_return_val_if_fail (is_null platform || OSINFO_IS_PLATFORM h platform) NULL (
  g_return_val_if_fail (OSINFO_IS_FILTER h filter) NULL (
    let link :=
      retval (osinfo_os_get_preferred_device_link h os platform filter) in
    if negb (is_null link)
    then Return (osinfo_devicelink_get_target h link)
    else Return NULL))).

(** ** [osinfo_os_get_devices] *)

Fixpoint get_devices_loop (h : heap) (filter : gpointer) (tmp : GList)
    (newList : GList) : GList :=
  match tmp with
  | [] => newList
  | data :: next =>
      let link := data in
      let dev := osinfo_devicelink_get_target h link in
      let newList :=
        if is_null filter || osinfo_filter_matches h filter dev
        then osinfo_list_add newList dev
        else newList in
      get_devices_loop h filter next newList
  end.

Definition osinfo_os_get_devices (h : heap)
    (os platform filter : gpointer) : checked (option GList) :=
  g_return_val_if_fail (OSINFO_IS_OS h os) None (
  g_return_val_if_fail (is_null platform || OSINFO_IS_PLATFORM h platform) None (
  g_return_val_if_fail (is_null filter || OSINFO_IS_FILTER h filter) None (
    let newList := osinfo_devicelist_new in
    let tmp :=
      if negb (is_null platform)
      then g_hash_table_lookup (platforms (os_priv h os))
             (osinfo_entity_get_id h platform)
      else deviceLinks (os_priv h os) in
    Return (Some (get_devices_loop h filter tmp newList))))).

(** ** [osinfo_os_get_device_links] *)

Fixpoint get_device_links_loop (h : heap) (filter : gpointer) (tmp : GList)
    (newList : GList) : GList :=
  match tmp with
  | [] => newList
  | data :: next =>
      let link := data in
      let newList :=
        if is_null filter || osinfo_filter_matches h filter link
        then osinfo_list_add newList link
        else newList in
      get_device_links_loop h filter next newList
  end.

Definition osinfo_os_get_device_links (h : heap)
    (os platform filter : gpointer) : checked (option GList) :=
  g_return_val_if_fail (OSINFO_IS_OS h os) None (
  g_return_val_if_fail (is_null platform || OSINFO_IS_PLATFORM h platform) None (
  g_return_val_if_fail (is_null filter || OSINFO_IS_FILTER h filter) None (
    let newList := osinfo_devicelinklist_new in
    let tmp :=
      if negb (is_null platform)
      then g_hash_table_lookup (platforms (os_priv h os))
             (osinfo_entity_get_id h platform)
      else deviceLinks (os_priv h os) in
    Return (Some (get_device_links_loop h filter tmp newList))))).

End Os.

(** ** [osinfo_os_add_device]

    The call returns its outcome and the heap it leaves. *)
Definition osinfo_os_add_device (os platform dev : gpointer) (h : heap)
    : checked gpointer * heap :=
  if negb (OSINFO_IS_OS h os) then (Critical NULL, h) else
  if negb (is_null platform || OSINFO_IS_PLATFORM h platform)
  then (Critical NULL, h) else
  if negb (OSINFO_IS_DEVICE h dev) then (Critical NULL, h) else
  let '(link, h) := osinfo_devicelink_new dev h in
  let priv := os_priv h os in
  let priv :=
    if negb (is_null platform) then
      let key := osinfo_entity_get_id h platform in
      let '(tmp, table) :=
        match g_hash_table_lookup_extended (platforms priv) key with
        | Some origValue => (origValue, g_hash_table_steal (platforms priv) key)
        | None => ([], platforms priv)
        end in
      let tmp := g_list_append tmp link in
      {| platforms := g_hash_table_insert table key tmp;
         deviceLinks := deviceLinks priv |}
    else
      {| platforms := platforms priv;
         deviceLinks := g_list_append (deviceLinks priv) link |} in
  (Return link, set_os_priv os priv h).

(** ** Reading the index

    A query or an insertion works on one sequence of the index: the one
    under the platform's identifier when a platform is given, the default
    one when it is not.  [scope_of] is that choice, [sequence] the list. *)

Definition scope_of (h : heap) (platform : gpointer) : option string :=
  match platform with
  | Some _ => Some (osinfo_entity_get_id h platform)
  | None => None
  end.

Definition sequence (priv : OsinfoOsPrivate) (s : option string) : GList :=
  match s with
  | Some key => g_hash_table_lookup (platforms priv) key
  | None => deviceLinks priv
  end.

(** The index with [link] put at the end of the sequence of scope [s]. *)
Definition priv_add (priv : OsinfoOsPrivate) (s : option string)
    (link : gpointer) : OsinfoOsPrivate :=
  match s with
  | Some key =>
      {| platforms := <[key := sequence priv s ++ [link]]> (platforms priv);
         deviceLinks := deviceLinks priv |}
  | None =>
      {| platforms := platforms priv;
         deviceLinks := deviceLinks priv ++ [link] |}
  end.

(** A run of [osinfo_os_add_device] calls on one operating system, each call
    given as its platform and device arguments.  The log has, in call order,
    the scope each call addressed and its outcome. *)
Fixpoint add_devices (os : gpointer) (calls : list (gpointer * gpointer))
    (h : heap) : list (option string * checked gpointer) * heap :=
  match calls with
  | [] => ([], h)
  | (platform, dev) :: rest =>
      let '(r, h1) := osinfo_os_add_device os platform dev h in
      let '(log, h2) := add_devices os rest h1 in
      ((scope_of h platform, r) :: log, h2)
  end.

(** The link a logged call returned, when the call addressed scope [s] and
    passed its checks. *)
Definition returned_in (s : option string)
    (entry : option string * checked gpointer) : option gpointer :=
  match entry.2 with
  | Return link => if decide (entry.1 = s) then Some link else None
  | Critical _ => None
  end.

(** The links the calls of scope [s] returned, in call order. *)
Definition returned_for (s : option string)
    (log : list (option string * checked gpointer)) : GList :=
  omap (returned_in s) log.

(** Every link any call of the log returned. *)
Definition returned (log : list (option string * checked gpointer))
    : GList :=
  omap (λ entry, match entry.2 with
                 | Return link => Some link
                 | Critical _ => None
                 end) log.

(** ** The heaps a program can reach

    Starting from no object at all, a program makes operating systems with
    [osinfo_os_new], makes other instances (platforms, devices, filters,
    ...) at unused addresses, and calls [osinfo_os_add_device] with any
    arguments.  Nothing else writes an index. *)

Definition is_os (o : GObject) : bool :=
  match o with
  | OsinfoOs _ _ => true
  | _ => false
  end.

Inductive step : heap → heap → Prop :=
| step_os_new id h :
    step h (osinfo_os_new id h).2
| step_object_new o h :
    is_os o = false →
    step h (g_object_new o h).2
| step_add_device os platform dev h :
    step h (osinfo_os_add_device os platform dev h).2.

Definition reachable (h : heap) : Prop := rtc step ∅ h.

(** ** How heaps evolve, and what holds of an index

    [heap_grows h h']: every instance of [h] is still there in [h'],
    unchanged, but for an operating system, whose sequences may have got
    longer at their ends. *)
Definition heap_grows (h h' : heap) : Prop :=
  ∀ x o, h !! x = Some o →
    match o with
    | OsinfoOs id priv =>
        ∃ priv', h' !! x = Some (OsinfoOs id priv')
                 ∧ ∀ s, sequence priv s `prefix_of` sequence priv' s
    | _ => h' !! x = Some o
    end.

(** The index [priv] in heap [h]: no platform key with an empty list, every
    entry a device link of the heap, no entry twice in a sequence, no entry
    in two sequences. *)
Record index_ok (h : heap) (priv : OsinfoOsPrivate) : Prop := {
  index_nonempty : ∀ key l, platforms priv !! key = Some l → l ≠ [];
  index_links : ∀ s link,
    link ∈ sequence priv s → OSINFO_IS_DEVICELINK h link = true;
  index_nodup : ∀ s, NoDup (sequence priv s);
  index_disjoint : ∀ s1 s2 link,
    link ∈ sequence priv s1 → link ∈ sequence priv s2 → s1 = s2
}.

Definition heap_ok (h : heap) : Prop :=
  ∀ a id priv, h !! a = Some (OsinfoOs id priv) → index_ok h priv.

(** The three checks of [osinfo_os_add_device]. *)
Definition add_device_precondition (h : heap) (os : gpointer)
    (call : gpointer * gpointer) : bool :=
  OSINFO_IS_OS h os
  && (is_null call.1 || OSINFO_IS_PLATFORM h call.1)
  && OSINFO_IS_DEVICE h call.2.

(** [same_entities h h']: the two heaps have the same operating systems,
    platforms, devices and filters, with the same identifiers. *)
Definition same_entities (h h' : heap) : Prop :=
  ∀ p, OSINFO_IS_OS h' p = OSINFO_IS_OS h p
       ∧ OSINFO_IS_PLATFORM h' p = OSINFO_IS_PLATFORM h p
       ∧ OSINFO_IS_DEVICE h' p = OSINFO_IS_DEVICE h p
       ∧ OSINFO_IS_FILTER h' p = OSINFO_IS_FILTER h p
       ∧ osinfo_entity_get_id h' p = osinfo_entity_get_id h p.

(** What the log says of one call of a run from [h] to [h']: a call that
    failed a check returned [NULL]; a call that passed them returned a link
    at an address unused in [h], which holds the call's device in [h']. *)
Definition call_entry (h h' : heap) (os : gpointer)
    (call : gpointer * gpointer)
    (entry : option string * checked gpointer) : Prop :=
  match entry.2 with
  | Critical v => v = NULL ∧ add_device_precondition h os call = false
  | Return link =>
      add_device_precondition h os call = true
      ∧ entry.1 = scope_of h call.1
      ∧ ∃ f, link = Some f ∧ h !! f = None
             ∧ h' !! f = Some (OsinfoDeviceLink call.2 None)
  end.

(** ** A concrete world

    A filter evaluator in the way of the library's own: a filter holds
    property constraints, and an entity matches when it has every one of
    them.  The heaps below are built by the operations above and serve as
    concrete inputs. *)

Definition entity_params (o : GObject) : list (string * string) :=
  match o with
  | OsinfoOs id _ => [("id", id)]
  | OsinfoPlatform id => [("id", id)]
  | OsinfoDevice id => [("id", id)]
  | OsinfoDeviceLink _ (Some driver) => [("driver", driver)]
  | _ => []
  end.

Definition constraints_match (h : heap) (filter entity : gpointer) : bool :=
  match deref h filter, deref h entity with
  | Some (OsinfoFilter constraints), Some o =>
      forallb (λ c, bool_decide (c ∈ entity_params o)) constraints
  | _, _ => false
  end.

Module World.

Definition fedora : gpointer := Some 1%positive.
Definition kvm : gpointer := Some 2%positive.
Definition xen : gpointer := Some 3%positive.
Definition virtio : gpointer := Some 4%positive.
Definition e1000 : gpointer := Some 5%positive.
Definition only_e1000 : gpointer := Some 6%positive.

(** One operating system with an empty index, two platforms, two devices
    and a filter that only the second device matches. *)
Definition w1 : heap := (osinfo_os_new "fedora" ∅).2.
Definition w2 : heap := (g_object_new (OsinfoPlatform "kvm") w1).2.
Definition w3 : heap := (g_object_new (OsinfoPlatform "xen") w2).2.
Definition w4 : heap := (g_object_new (OsinfoDevice "virtio-net") w3).2.
Definition w5 : heap := (g_object_new (OsinfoDevice "e1000") w4).2.
Definition start : heap :=
  (g_object_new (OsinfoFilter [("id", "e1000")]) w5).2.

(** [virtio] then [e1000] linked without a platform. *)
Definition default1 : heap := (osinfo_os_add_device fedora NULL virtio start).2.
Definition default2 : heap :=
  (osinfo_os_add_device fedora NULL e1000 default1).2.

(** [virtio] linked under [kvm]. *)
Definition kvm1 : heap := (osinfo_os_add_device fedora kvm virtio start).2.

End World.

(** ** Teardown: [osinfo_os_finalize]

    What teardown does to the associations is to call [g_object_unref] on
    them; the functions below give the pointers passed to [g_object_unref],
    in call order. *)

(** [osinfo_device_link_free]: one [g_object_unref] on the list element. *)
Definition osinfo_device_link_free (data : gpointer) : GList := [data].

(** [g_list_foreach]: the function is called on every element, in order. *)
Definition g_list_foreach (list : GList) (func : gpointer → GList) : GList :=
  flat_map func list.

(** [osinfo_os_platform_devices_free], the value destroy function given to
    [g_hash_table_new_full] in [osinfo_os_init]. *)
Definition osinfo_os_platform_devices_free (opaque : GList) : GList :=
  let deviceLinks := opaque in
  g_list_foreach deviceLinks osinfo_device_link_free.

(** [g_hash_table_unref] on the table's one reference: the value destroy
    function is called on the value of every entry, in the order the table
    has them. *)
Definition g_hash_table_unref (table : gmap string GList)
    (value_destroy_func : GList → GList) : GList :=
  flat_map (λ entry, value_destroy_func entry.2) (map_to_list table).

Definition osinfo_os_finalize (h : heap) (object : gpointer) : GList :=
  let os := object in
  g_list_foreach (deviceLinks (os_priv h os)) osinfo_device_link_free
  ++ g_hash_table_unref (platforms (os_priv h os))
       osinfo_os_platform_devices_free.

(** More concrete heaps: a second platform instance with the identifier of
    [World.kvm], and a second operating system. *)
Module World2.

Definition kvm_twin : gpointer := Some 8%positive.

Definition twin : heap :=
  (g_object_new (OsinfoPlatform "kvm") World.kvm1).2.

(** Three links on [World.fedora]: two under [World.kvm], one without
    platform. *)
Definition calls : list (gpointer * gpointer) :=
  [(World.kvm, World.virtio); (NULL, World.e1000); (World.kvm, World.e1000)].
Definition three : heap := (add_devices World.fedora calls World.start).2.

End World2.

(** * Basic facts *)

Lemma fresh_unused (h : heap) : h !! fresh (dom h) = None.
Proof. apply not_elem_of_dom, is_fresh. Qed.

Lemma fresh_ne (h : heap) a o : h !! a = Some o → a ≠ fresh (dom h).
Proof. intros Ha ->. rewrite fresh_unused in Ha. discriminate. Qed.

Lemma IS_OS_inv h os :
  OSINFO_IS_OS h os = true →
  ∃ a id priv, os = Some a ∧ h !! a = Some (OsinfoOs id priv).
Proof.
  unfold OSINFO_IS_OS. destruct os as [a|]; simpl; [|done].
  destruct (h !! a) as [[]|] eqn:E; try done. eauto.
Qed.

Lemma IS_PLATFORM_inv h p :
  OSINFO_IS_PLATFORM h p = true →
  ∃ a id, p = Some a ∧ h !! a = Some (OsinfoPlatform id).
Proof.
  unfold OSINFO_IS_PLATFORM. destruct p as [a|]; simpl; [|done].
  destruct (h !! a) as [[]|] eqn:E; try done. eauto.
Qed.

Lemma IS_DEVICE_inv h p :
  OSINFO_IS_DEVICE h p = true →
  ∃ a id, p = Some a ∧ h !! a = Some (OsinfoDevice id).
Proof.
  unfold OSINFO_IS_DEVICE. destruct p as [a|]; simpl; [|done].
  destruct (h !! a) as [[]|] eqn:E; try done. eauto.
Qed.

Lemma sequence_priv_add priv s link s' :
  sequence (priv_add priv s link) s' =
  if decide (s = s') then sequence priv s' ++ [link] else sequence priv s'.
Proof.
  destruct s as [k|], s' as [k'|]; simpl; unfold g_hash_table_lookup; simpl.
  - destruct (decide (k = k')) as [->|Hne].
    + rewrite lookup_insert_eq, decide_True by done. done.
    + rewrite lookup_insert_ne by done.
      rewrite decide_False by congruence. done.
  - done.
  - done.
  - done.
Qed.

(** What a call with valid arguments does: it takes the unused address
    [fresh (dom h)] for the new link and puts it at the end of the sequence
    of the call's scope. *)
Lemma add_device_ok h a id priv platform dev :
  h !! a = Some (OsinfoOs id priv) →
  is_null platform || OSINFO_IS_PLATFORM h platform = true →
  OSINFO_IS_DEVICE h dev = true →
  osinfo_os_add_device (Some a) platform dev h =
    (Return (Some (fresh (dom h))),
     <[a := OsinfoOs id
              (priv_add priv (scope_of h platform) (Some (fresh (dom h))))]>
       (<[fresh (dom h) := OsinfoDeviceLink dev None]> h)).
Proof.
  intros Hos Hp Hd. unfold osinfo_os_add_device.
  assert (OSINFO_IS_OS h (Some a) = true) as ->
    by (unfold OSINFO_IS_OS; simpl; by rewrite Hos).
  rewrite Hp, Hd. simpl.
  pose proof (fresh_ne _ _ _ Hos) as Hne.
  unfold os_priv, set_os_priv. simpl.
  rewrite lookup_insert_ne, Hos by done.
  f_equal. f_equal. f_equal.
  destruct platform as [p|]; simpl; [|done].
  simpl in Hp. apply IS_PLATFORM_inv in Hp as (p' & pid & [= <-] & Hpl).
  unfold osinfo_entity_get_id; simpl.
  pose proof (fresh_ne _ _ _ Hpl) as Hnp.
  rewrite lookup_insert_ne, Hpl by done.
  unfold g_hash_table_lookup_extended, g_hash_table_lookup,
    g_hash_table_steal, g_hash_table_insert, g_list_append.
  destruct (platforms priv !! pid) eqn:E; simpl; [|done].
  by rewrite insert_delete_eq.
Qed.

(** What a call with an invalid argument does. *)
Lemma add_device_fail h os platform dev :
  OSINFO_IS_OS h os
    && (is_null platform || OSINFO_IS_PLATFORM h platform)
    && OSINFO_IS_DEVICE h dev = false →
  osinfo_os_add_device os platform dev h = (Critical NULL, h).
Proof.
  unfold osinfo_os_add_device.
  destruct (OSINFO_IS_OS h os); simpl; [|done].
  destruct (is_null platform || OSINFO_IS_PLATFORM h platform); simpl; [|done].
  destruct (OSINFO_IS_DEVICE h dev); simpl; done.
Qed.

(** * The queries *)

Section OsQueries.

Variable osinfo_filter_matches : heap → gpointer → gpointer → bool.

Lemma selected_sequence h os (platform : gpointer) :
  (if negb (is_null platform)
   then g_hash_table_lookup (platforms (os_priv h os))
          (osinfo_entity_get_id h platform)
   else deviceLinks (os_priv h os))
  = sequence (os_priv h os) (scope_of h platform).
Proof. by destruct platform. Qed.

Lemma get_devices_loop_spec h filter tmp newList :
  get_devices_loop osinfo_filter_matches h filter tmp newList =
  newList ++
  map (osinfo_devicelink_get_target h)
    (List.filter
       (λ link, is_null filter
                || osinfo_filter_matches h filter
                     (osinfo_devicelink_get_target h link)) tmp).
Proof.
  revert newList. induction tmp as [|link tmp IH]; intros newList; simpl.
  - by rewrite app_nil_r.
  - rewrite IH. unfold osinfo_list_add.
    destruct (is_null filter || _); simpl; [|done].
    by rewrite <- app_assoc.
Qed.

Lemma get_device_links_loop_spec h filter tmp newList :
  get_device_links_loop osinfo_filter_matches h filter tmp newList =
  newList ++
  List.filter
    (λ link, is_null filter || osinfo_filter_matches h filter link) tmp.
Proof.
  revert newList. induction tmp as [|link tmp IH]; intros newList; simpl.
  - by rewrite app_nil_r.
  - rewrite IH. unfold osinfo_list_add.
    destruct (is_null filter || _); simpl; [|done].
    by rewrite <- app_assoc.
Qed.

Lemma get_devices_ok h os platform filter :
  OSINFO_IS_OS h os = true →
  is_null platform || OSINFO_IS_PLATFORM h platform = true →
  is_null filter || OSINFO_IS_FILTER h filter = true →
  osinfo_os_get_devices osinfo_filter_matches h os platform filter =
  Return (Some (map (osinfo_devicelink_get_target h)
    (List.filter
       (λ link, is_null filter
                || osinfo_filter_matches h filter
                     (osinfo_devicelink_get_target h link))
       (sequence (os_priv h os) (scope_of h platform))))).
Proof.
  intros Hos Hp Hf. unfold osinfo_os_get_devices, g_return_val_if_fail.
  rewrite Hos, Hp, Hf, selected_sequence, get_devices_loop_spec. done.
Qed.

Lemma get_device_links_ok h os platform filter :
  OSINFO_IS_OS h os = true →
  is_null platform || OSINFO_IS_PLATFORM h platform = true →
  is_null filter || OSINFO_IS_FILTER h filter = true →
  osinfo_os_get_device_links osinfo_filter_matches h os platform filter =
  Return (Some (List.filter
    (λ link, is_null filter || osinfo_filter_matches h filter link)
    (sequence (os_priv h os) (scope_of h platform)))).
Proof.
  intros Hos Hp Hf. unfold osinfo_os_get_device_links, g_return_val_if_fail.
  rewrite Hos, Hp, Hf, selected_sequence, get_device_links_loop_spec. done.
Qed.

Lemma get_preferred_device_link_ok h os platform filter :
  OSINFO_IS_OS h os = true →
  is_null platform || OSINFO_IS_PLATFORM h platform = true →
  OSINFO_IS_FILTER h filter = true →
  osinfo_os_get_preferred_device_link osinfo_filter_matches h os platform
    filter =
  Return (preferred_device_link_loop osinfo_filter_matches h filter
            (sequence (os_priv h os) (scope_of h platform))).
Proof.
  intros Hos Hp Hf.
  unfold osinfo_os_get_preferred_device_link, g_return_val_if_fail.
  rewrite Hos, Hp, Hf, selected_sequence. done.
Qed.

Lemma IS_FILTER_not_null h filter :
  OSINFO_IS_FILTER h filter = true → is_null filter = false.
Proof. by destruct filter. Qed.

(** The loop stops at the first link whose target matches. *)
Lemma preferred_device_link_loop_spec h filter tmp :
  is_null filter = false →
  let matches link :=
    osinfo_filter_matches h filter (osinfo_devicelink_get_target h link) in
  (∃ before link after,
      tmp = before ++ link :: after
      ∧ Forall (λ l, matches l = false) before
      ∧ matches link = true
      ∧ preferred_device_link_loop osinfo_filter_matches h filter tmp = link)
  ∨ (Forall (λ l, matches l = false) tmp
     ∧ preferred_device_link_loop osinfo_filter_matches h filter tmp = NULL).
Proof.
  intros Hf matches. induction tmp as [|link tmp IH]; simpl.
  - right. split; [constructor | done].
  - rewrite Hf. simpl. fold (matches link).
    destruct (matches link) eqn:Hm.
    + left. exists [], link, tmp. repeat split; [constructor | done].
    + destruct IH as [(before & l & after & -> & Hb & Hl & Hr) | [Hall Hr]].
      * left. exists (link :: before), l, after.
        repeat split; [by constructor | done | done].
      * right. split; [by constructor | done].
Qed.

(** C3: with a valid filter, [osinfo_os_get_preferred_device_link] walks
    the sequence selected by the platform argument in insertion order,
    evaluates the filter on the target device of each association, and
    returns the first association whose device matches; it returns [NULL]
    when no device of the sequence matches, in particular when the sequence
    is empty. *)
Theorem preferred_device_link_first_match h os platform filter :
  OSINFO_IS_OS h os = true →
  is_null platform || OSINFO_IS_PLATFORM h platform = true →
  OSINFO_IS_FILTER h filter = true →
  let seq := sequence (os_priv h os) (scope_of h platform) in
  let device_matches link :=
    osinfo_filter_matches h filter (osinfo_devicelink_get_target h link) in
  let result :=
    osinfo_os_get_preferred_device_link osinfo_filter_matches h os platform
      filter in
  (∃ before link after,
      seq = before ++ link :: after
      ∧ Forall (λ l, device_matches l = false) before
      ∧ device_matches link = true
      ∧ result = Return link)
  ∨ (Forall (λ l, device_matches l = false) seq ∧ result = Return NULL).
Proof.
  intros Hos Hp Hf seq device_matches result. subst result.
  rewrite get_preferred_device_link_ok by done. fold seq.
  destruct (preferred_device_link_loop_spec h filter seq
              (IS_FILTER_not_null _ _ Hf))
    as [(before & link & after & Hs & Hb & Hl & Hr) | [Hall Hr]].
  - left. exists before, link, after. by rewrite Hr.
  - right. by rewrite Hr.
Qed.

(** C7: [osinfo_os_get_device_links] reads the same sequence as
    [osinfo_os_get_devices], evaluates the filter on the association itself
    where [osinfo_os_get_devices] evaluates it on the target device, and
    returns the matching associations themselves, in insertion order, where
    [osinfo_os_get_devices] returns the target devices. *)
Theorem get_device_links_filters_links h os platform filter :
  OSINFO_IS_OS h os = true →
  is_null platform || OSINFO_IS_PLATFORM h platform = true →
  is_null filter || OSINFO_IS_FILTER h filter = true →
  let seq := sequence (os_priv h os) (scope_of h platform) in
  osinfo_os_get_device_links osinfo_filter_matches h os platform filter =
    Return (Some (List.filter
      (λ link, is_null filter || osinfo_filter_matches h filter link) seq))
  ∧ osinfo_os_get_devices osinfo_filter_matches h os platform filter =
    Return (Some (map (osinfo_devicelink_get_target h) (List.filter
      (λ link, is_null filter
               || osinfo_filter_matches h filter
                    (osinfo_devicelink_get_target h link)) seq))).
Proof.
  intros Hos Hp Hf seq. split.
  - by apply get_device_links_ok.
  - by apply get_devices_ok.
Qed.

End OsQueries.

(** * Argument checks and empty results *)

Section OsChecks.

Variable osinfo_filter_matches : heap → gpointer → gpointer → bool.

Local Notation get_preferred_device_link :=
  (osinfo_os_get_preferred_device_link osinfo_filter_matches).
Local Notation get_preferred_device :=
  (osinfo_os_get_preferred_device osinfo_filter_matches).
Local Notation get_devices := (osinfo_os_get_devices osinfo_filter_matches).
Local Notation get_device_links :=
  (osinfo_os_get_device_links osinfo_filter_matches).

(** The two preferred queries turn a [NULL] filter down in their third
    check, whatever the index holds. *)
Lemma preferred_null_filter h os platform :
  get_preferred_device_link h os platform NULL = Critical NULL
  ∧ get_preferred_device h os platform NULL = Critical NULL.
Proof.
  unfold osinfo_os_get_preferred_device_link, osinfo_os_get_preferred_device,
    g_return_val_if_fail.
  destruct (OSINFO_IS_OS h os), (is_null platform || OSINFO_IS_PLATFORM h platform); done.
Qed.

(** The loop itself takes a [NULL] filter: it would stop at the first
    association.  The check before it is what keeps [NULL] out. *)
Lemma preferred_device_link_loop_null_filter h tmp :
  preferred_device_link_loop osinfo_filter_matches h NULL tmp = hd NULL tmp.
Proof. by destruct tmp. Qed.

Lemma get_preferred_device_ok h os platform filter :
  OSINFO_IS_OS h os = true →
  is_null platform || OSINFO_IS_PLATFORM h platform = true →
  OSINFO_IS_FILTER h filter = true →
  get_preferred_device h os platform filter =
  Return (osinfo_devicelink_get_target h
            (preferred_device_link_loop osinfo_filter_matches h filter
               (sequence (os_priv h os) (scope_of h platform)))).
Proof.
  intros Hos Hp Hf.
  unfold osinfo_os_get_preferred_device.
  rewrite get_preferred_device_link_ok by done.
  unfold g_return_val_if_fail. rewrite Hos, Hp, Hf. simpl.
  by destruct (preferred_device_link_loop _ _ _ _).
Qed.

(** C6: on a platform with no association, whether its identifier is
    missing from the hash table or maps to the empty list,
    [osinfo_os_get_devices] and [osinfo_os_get_device_links] return a new
    empty list and the preferred queries return [NULL]; none of them logs a
    warning for the missing key. *)
Theorem empty_platform_queries h os platform :
  OSINFO_IS_OS h os = true →
  OSINFO_IS_PLATFORM h platform = true →
  (platforms (os_priv h os) !! osinfo_entity_get_id h platform = None
   ∨ platforms (os_priv h os) !! osinfo_entity_get_id h platform = Some []) →
  (∀ filter, is_null filter || OSINFO_IS_FILTER h filter = true →
     get_devices h os platform filter = Return (Some [])
     ∧ get_device_links h os platform filter = Return (Some []))
  ∧ (∀ filter, OSINFO_IS_FILTER h filter = true →
     get_preferred_device_link h os platform filter = Return NULL
     ∧ get_preferred_device h os platform filter = Return NULL)
  ∧ (∀ filter,
     retval (get_preferred_device_link h os platform filter) = NULL
     ∧ retval (get_preferred_device h os platform filter) = NULL).
Proof.
  intros Hos Hp Hkey.
  assert (is_null platform || OSINFO_IS_PLATFORM h platform = true) as Hp'
    by (rewrite Hp; apply orb_true_r).
  assert (sequence (os_priv h os) (scope_of h platform) = []) as Hseq.
  { destruct platform as [p|]; [|done]. simpl. unfold g_hash_table_lookup.
    by destruct Hkey as [-> | ->]. }
  assert (∀ filter, OSINFO_IS_FILTER h filter = true →
     get_preferred_device_link h os platform filter = Return NULL
     ∧ get_preferred_device h os platform filter = Return NULL) as Hpref.
  { intros filter Hf. split.
    - rewrite get_preferred_device_link_ok, Hseq by done. done.
    - rewrite get_preferred_device_ok, Hseq by done. done. }
  split; [|split].
  - intros filter Hf. split.
    + rewrite get_devices_ok, Hseq by done. done.
    + rewrite get_device_links_ok, Hseq by done. done.
  - done.
  - intros filter. destruct (OSINFO_IS_FILTER h filter) eqn:Hf.
    + destruct (Hpref filter Hf) as [-> ->]. done.
    + unfold osinfo_os_get_preferred_device_link, osinfo_os_get_preferred_device,
        g_return_val_if_fail.
      rewrite Hos, Hp', Hf. done.
Qed.

(** C10: a call whose [os] is not an operating system, whose platform is
    given and is not a platform, whose device is not a device or, for the
    two preferred queries, whose filter is not a filter (for the two list
    queries, whose filter is given and is not a filter) returns [NULL] from
    its checks and leaves the heap as it was.  For the two list queries that
    [NULL] differs from what they return on a platform without
    associations, the pointer to a new empty list. *)
Theorem invalid_arguments_return_null h os platform dev filter :
  let bad_os := OSINFO_IS_OS h os = false in
  let bad_platform :=
    is_null platform = false ∧ OSINFO_IS_PLATFORM h platform = false in
  (bad_os ∨ bad_platform ∨ OSINFO_IS_DEVICE h dev = false →
     osinfo_os_add_device os platform dev h = (Critical NULL, h))
  ∧ (bad_os ∨ bad_platform ∨ OSINFO_IS_FILTER h filter = false →
     get_preferred_device_link h os platform filter = Critical NULL
     ∧ get_preferred_device h os platform filter = Critical NULL)
  ∧ (bad_os ∨ bad_platform
     ∨ (is_null filter = false ∧ OSINFO_IS_FILTER h filter = false) →
     get_devices h os platform filter = Critical None
     ∧ get_device_links h os platform filter = Critical None
     ∧ ∀ h' os' platform' filter',
         OSINFO_IS_OS h' os' = true →
         OSINFO_IS_PLATFORM h' platform' = true →
         is_null filter' || OSINFO_IS_FILTER h' filter' = true →
         sequence (os_priv h' os') (scope_of h' platform') = [] →
         get_devices h' os' platform' filter' = Return (Some [])
         ∧ get_device_links h' os' platform' filter' = Return (Some [])
         ∧ retval (get_devices h os platform filter)
           ≠ retval (get_devices h' os' platform' filter')
         ∧ retval (get_device_links h os platform filter)
           ≠ retval (get_device_links h' os' platform' filter')).
Proof.
  intros bad_os bad_platform. subst bad_os bad_platform.
  split; [|split].
  - intros Hbad. apply add_device_fail.
    destruct Hbad as [-> | [[-> ->] | ->]]; simpl.
    + done.
    + by destruct (OSINFO_IS_OS h os).
    + apply andb_false_r.
  - intros Hbad.
    unfold osinfo_os_get_preferred_device_link, osinfo_os_get_preferred_device,
      g_return_val_if_fail.
    destruct Hbad as [-> | [[-> ->] | ->]]; simpl.
    + done.
    + by destruct (OSINFO_IS_OS h os).
    + by destruct (OSINFO_IS_OS h os), (is_null platform || OSINFO_IS_PLATFORM h platform).
  - intros Hbad.
    assert (get_devices h os platform filter = Critical None
            ∧ get_device_links h os platform filter = Critical None)
      as [Hd Hl].
    { unfold osinfo_os_get_devices,
        osinfo_os_get_device_links, g_return_val_if_fail.
      destruct Hbad as [-> | [[-> ->] | [-> ->]]]; simpl.
      - done.
      - by destruct (OSINFO_IS_OS h os).
      - by destruct (OSINFO_IS_OS h os), (is_null platform || OSINFO_IS_PLATFORM h platform). }
    split; [done | split; [done |]].
    intros h' os' platform' filter' Hos Hp Hf Hseq.
    assert (is_null platform' || OSINFO_IS_PLATFORM h' platform' = true)
      as Hp' by (rewrite Hp; apply orb_true_r).
    rewrite Hd, Hl.
    rewrite get_devices_ok, get_device_links_ok, Hseq by done.
    simpl. done.
Qed.

End OsChecks.

(** * How the heap evolves *)

Lemma add_device_cases h os platform dev :
  osinfo_os_add_device os platform dev h = (Critical NULL, h)
  ∨ ∃ a id priv,
      os = Some a ∧ h !! a = Some (OsinfoOs id priv)
      ∧ is_null platform || OSINFO_IS_PLATFORM h platform = true
      ∧ OSINFO_IS_DEVICE h dev = true
      ∧ osinfo_os_add_device os platform dev h =
          (Return (Some (fresh (dom h))),
           <[a := OsinfoOs id
                    (priv_add priv (scope_of h platform)
                       (Some (fresh (dom h))))]>
             (<[fresh (dom h) := OsinfoDeviceLink dev None]> h)).
Proof.
  destruct (OSINFO_IS_OS h os
            && (is_null platform || OSINFO_IS_PLATFORM h platform)
            && OSINFO_IS_DEVICE h dev) eqn:E.
  - right. apply andb_prop in E as [E Hd]. apply andb_prop in E as [Hos Hp].
    apply IS_OS_inv in Hos as (a & id & priv & -> & Hos).
    exists a, id, priv. repeat split; try done. by apply add_device_ok.
  - left. by apply add_device_fail.
Qed.

Lemma heap_grows_refl h : heap_grows h h.
Proof.
  intros x o Hx. destruct o; try done. eexists. split; [done|]. done.
Qed.

Lemma heap_grows_trans h1 h2 h3 :
  heap_grows h1 h2 → heap_grows h2 h3 → heap_grows h1 h3.
Proof.
  intros H12 H23 x o Hx. specialize (H12 x o Hx).
  destruct o; try (by apply (H23 x _ H12)).
  destruct H12 as (priv2 & Hx2 & Hp2).
  destruct (H23 x _ Hx2) as (priv3 & Hx3 & Hp3).
  exists priv3. split; [done|]. intros s.
  etrans; [apply Hp2 | apply Hp3].
Qed.

Lemma heap_grows_object_new o h : heap_grows h (g_object_new o h).2.
Proof.
  intros x o' Hx. simpl.
  pose proof (fresh_ne _ _ _ Hx) as Hne.
  destruct o'; rewrite ?lookup_insert_ne by done; try done.
  eexists. split; [done|]. done.
Qed.

Lemma heap_grows_add_device os platform dev h :
  heap_grows h (osinfo_os_add_device os platform dev h).2.
Proof.
  destruct (add_device_cases h os platform dev)
    as [-> | (a & id & priv & -> & Hos & _ & _ & ->)]; simpl.
  - apply heap_grows_refl.
  - intros x o Hx. pose proof (fresh_ne _ _ _ Hx) as Hne.
    destruct (decide (x = a)) as [->|Hxa].
    + rewrite Hos in Hx. injection Hx as <-.
      eexists. split; [apply lookup_insert_eq|].
      intros s. rewrite sequence_priv_add. case_decide; [|done].
      by apply prefix_app_r.
    + destruct o; rewrite ?lookup_insert_ne by done; try done.
      eexists. split; [done|]. done.
Qed.

Lemma heap_grows_step h h' : step h h' → heap_grows h h'.
Proof.
  destruct 1.
  - apply heap_grows_object_new.
  - apply heap_grows_object_new.
  - apply heap_grows_add_device.
Qed.

Lemma heap_grows_steps h h' : rtc step h h' → heap_grows h h'.
Proof.
  induction 1 as [|h1 h2 h3 Hs _ IH].
  - apply heap_grows_refl.
  - eapply heap_grows_trans; [by apply heap_grows_step | done].
Qed.

(** What stays as it is when the heap grows. *)

Lemma heap_grows_platform h h' p :
  heap_grows h h' → OSINFO_IS_PLATFORM h p = true →
  OSINFO_IS_PLATFORM h' p = true
  ∧ osinfo_entity_get_id h' p = osinfo_entity_get_id h p.
Proof.
  intros Hg (a & id & -> & Ha)%IS_PLATFORM_inv.
  pose proof (Hg a _ Ha) as Ha'. simpl in Ha'.
  unfold OSINFO_IS_PLATFORM, osinfo_entity_get_id. simpl.
  by rewrite Ha, Ha'.
Qed.

Lemma heap_grows_scope h h' p :
  heap_grows h h' →
  is_null p || OSINFO_IS_PLATFORM h p = true →
  scope_of h' p = scope_of h p.
Proof.
  intros Hg Hp. destruct p as [a|]; [|done]. simpl in Hp.
  unfold scope_of. f_equal. by apply heap_grows_platform.
Qed.

Lemma heap_grows_device h h' p :
  heap_grows h h' → OSINFO_IS_DEVICE h p = true →
  OSINFO_IS_DEVICE h' p = true.
Proof.
  intros Hg (a & id & -> & Ha)%IS_DEVICE_inv.
  pose proof (Hg a _ Ha) as Ha'. simpl in Ha'.
  unfold OSINFO_IS_DEVICE. simpl. by rewrite Ha'.
Qed.

Lemma heap_grows_link h h' link :
  heap_grows h h' → OSINFO_IS_DEVICELINK h link = true →
  OSINFO_IS_DEVICELINK h' link = true
  ∧ osinfo_devicelink_get_target h' link
    = osinfo_devicelink_get_target h link.
Proof.
  intros Hg. unfold OSINFO_IS_DEVICELINK, osinfo_devicelink_get_target.
  destruct link as [a|]; simpl; [|done].
  destruct (h !! a) as [o|] eqn:Ha; [|done].
  pose proof (Hg a _ Ha) as Ha'.
  destruct o; try done. simpl in Ha'. by rewrite Ha'.
Qed.

Lemma heap_grows_os h h' a id priv :
  heap_grows h h' → h !! a = Some (OsinfoOs id priv) →
  ∃ priv', h' !! a = Some (OsinfoOs id priv')
           ∧ ∀ s, sequence priv s `prefix_of` sequence priv' s.
Proof. intros Hg Ha. apply (Hg a _ Ha). Qed.

Lemma heap_grows_unused h h' a :
  heap_grows h h' → h' !! a = None → h !! a = None.
Proof.
  intros Hg Ha'. destruct (h !! a) as [o|] eqn:Ha; [|done].
  pose proof (Hg a _ Ha) as H. destruct o; simpl in H.
  - destruct H as (? & H & _). congruence.
  - congruence.
  - congruence.
  - congruence.
  - congruence.
  - congruence.
Qed.

Lemma map_target_grows h h' l :
  heap_grows h h' →
  (∀ link, link ∈ l → OSINFO_IS_DEVICELINK h link = true) →
  map (osinfo_devicelink_get_target h') l
  = map (osinfo_devicelink_get_target h) l.
Proof.
  intros Hg Hl. apply map_ext_in. intros link Hin.
  apply heap_grows_link; [done|]. apply Hl. by apply list_elem_of_In.
Qed.

Lemma same_entities_refl h : same_entities h h.
Proof. by intros p. Qed.

Lemma same_entities_trans h1 h2 h3 :
  same_entities h1 h2 → same_entities h2 h3 → same_entities h1 h3.
Proof.
  intros H12 H23 p.
  destruct (H23 p) as (-> & -> & -> & -> & ->).
  destruct (H12 p) as (-> & -> & -> & -> & ->). done.
Qed.

Lemma same_entities_add_device os platform dev h :
  same_entities h (osinfo_os_add_device os platform dev h).2.
Proof.
  destruct (add_device_cases h os platform dev)
    as [-> | (a & id & priv & -> & Hos & _ & _ & ->)]; simpl.
  - apply same_entities_refl.
  - intros [x|]; [|done].
    unfold OSINFO_IS_OS, OSINFO_IS_PLATFORM, OSINFO_IS_DEVICE,
      OSINFO_IS_FILTER, osinfo_entity_get_id. simpl.
    destruct (decide (x = a)) as [->|Hxa].
    + by rewrite lookup_insert_eq, Hos.
    + rewrite lookup_insert_ne by done.
      destruct (decide (x = fresh (dom h))) as [->|Hxf].
      * by rewrite lookup_insert_eq, fresh_unused.
      * by rewrite lookup_insert_ne.
Qed.

Lemma same_entities_precondition h h' os call :
  same_entities h h' →
  add_device_precondition h' os call = add_device_precondition h os call.
Proof.
  intros He. unfold add_device_precondition.
  destruct (He os) as (-> & _).
  destruct (He call.1) as (_ & -> & _).
  destruct (He call.2) as (_ & _ & -> & _). done.
Qed.

Lemma same_entities_scope h h' p :
  same_entities h h' → scope_of h' p = scope_of h p.
Proof.
  intros He. destruct p as [a|]; [|done]. unfold scope_of. f_equal.
  apply He.
Qed.

Lemma returned_for_cons s entry log :
  returned_for s (entry :: log) =
  match returned_in s entry with
  | Some link => link :: returned_for s log
  | None => returned_for s log
  end.
Proof. done. Qed.

(** The run of calls: the sequences of the operating system get the links
    the calls returned, each at the end of the sequence of its scope. *)
Lemma add_devices_spec calls : ∀ h a id priv log h',
  h !! a = Some (OsinfoOs id priv) →
  add_devices (Some a) calls h = (log, h') →
  heap_grows h h' ∧ same_entities h h'
  ∧ Forall2 (call_entry h h' (Some a)) calls log
  ∧ NoDup (returned log)
  ∧ ∃ priv', h' !! a = Some (OsinfoOs id priv')
      ∧ ∀ s, sequence priv' s = sequence priv s ++ returned_for s log.
Proof.
  induction calls as [|[platform dev] calls IH]; intros h a id priv log h' Ha.
  - intros [= <- <-]. split; [apply heap_grows_refl|].
    split; [apply same_entities_refl|]. split; [constructor|].
    split; [constructor|].
    exists priv. split; [done|]. intros s. by rewrite app_nil_r.
  - simpl.
    pose proof (heap_grows_add_device (Some a) platform dev h) as Hg1.
    pose proof (same_entities_add_device (Some a) platform dev h) as He1.
    destruct (add_device_cases h (Some a) platform dev)
      as [E | (a' & id' & priv0 & [= <-] & Ha' & Hp & Hd & E)];
      rewrite E in Hg1, He1 |- *; simpl in Hg1, He1.
    + destruct (add_devices (Some a) calls h) as [log' h2] eqn:E2.
      intros [= <- <-].
      destruct (IH _ _ _ _ _ _ Ha E2) as (Hg & He & Hall & Hnd & priv' & Ha2 & Hseq).
      split; [done|]. split; [done|]. split; [|split].
      * constructor; [|done]. unfold call_entry. simpl. split; [done|].
        unfold add_device_precondition. simpl.
        destruct (OSINFO_IS_OS h (Some a)
                  && (is_null platform || OSINFO_IS_PLATFORM h platform)
                  && OSINFO_IS_DEVICE h dev) eqn:Epre; [|done].
        apply andb_prop in Epre as [Epre Hd].
        apply andb_prop in Epre as [_ Hp].
        rewrite (add_device_ok _ _ _ _ _ _ Ha Hp Hd) in E. discriminate.
      * done.
      * exists priv'. split; [done|]. intros s. by rewrite Hseq.
    + rewrite Ha in Ha'. injection Ha' as <- <-.
      set (f := fresh (dom h)) in *.
      set (h1 := <[a := _]> _) in *.
      assert (h1 !! a = Some (OsinfoOs id
                (priv_add priv (scope_of h platform) (Some f)))) as Ha1
        by apply lookup_insert_eq.
      assert (h1 !! f = Some (OsinfoDeviceLink dev None)) as Hf1.
      { unfold h1. rewrite lookup_insert_ne by (by eapply fresh_ne).
        apply lookup_insert_eq. }
      destruct (add_devices (Some a) calls h1) as [log' h2] eqn:E2.
      intros [= <- <-].
      destruct (IH _ _ _ _ _ _ Ha1 E2)
        as (Hg & He & Hall & Hnd & priv' & Ha2 & Hseq).
      split; [by eapply heap_grows_trans|].
      split; [by eapply same_entities_trans|].
      split; [|split].
      * constructor.
        -- unfold call_entry. simpl. split.
           ++ unfold add_device_precondition, OSINFO_IS_OS. simpl.
              by rewrite Ha, Hp, Hd.
           ++ split; [done|]. exists f. split; [done|].
              split; [apply fresh_unused|]. apply (Hg f _ Hf1).
        -- eapply Forall2_impl; [exact Hall|].
           intros call entry. unfold call_entry.
           rewrite (same_entities_precondition h h1) by done.
           rewrite (same_entities_scope h h1) by done.
           destruct entry.2; [done|].
           intros (? & ? & f' & ? & Hf' & ?). split; [done|]. split; [done|].
           exists f'. split; [done|]. split; [|done].
           by eapply heap_grows_unused.
      * unfold returned. simpl. fold (returned log'). constructor; [|done].
        intros Hin. unfold returned in Hin.
        apply list_elem_of_omap in Hin as (entry & Hentry & Hret).
        apply list_elem_of_lookup in Hentry as [i Hi].
        destruct (Forall2_lookup_r _ _ _ _ _ Hall Hi) as (call & _ & Hce).
        unfold call_entry in Hce. destruct entry.2 as [|link]; [done|].
        injection Hret as ->.
        destruct Hce as (_ & _ & f' & [= <-] & Hf' & _). congruence.
      * exists priv'. split; [done|]. intros s.
        rewrite Hseq, sequence_priv_add, returned_for_cons.
        unfold returned_in. simpl. case_decide.
        -- by rewrite <- app_assoc.
        -- done.
Qed.

Lemma returned_targets h h' os s calls log :
  Forall2 (call_entry h h' os) calls log →
  Forall (λ call, add_device_precondition h os call = true
                  ∧ scope_of h call.1 = s) calls →
  map (osinfo_devicelink_get_target h') (returned_for s log) = calls.*2
  ∧ Forall (λ entry, ∃ f, entry.2 = Return (Some f)) log.
Proof.
  induction 1 as [|call entry calls log Hce _ IH]; intros Hcalls.
  - done.
  - apply Forall_cons in Hcalls as [[Hpre Hs] Hcalls].
    destruct (IH Hcalls) as [IHt IHr].
    rewrite returned_for_cons. unfold returned_in, call_entry in *.
    destruct entry.2 as [v|link] eqn:E2.
    + destruct Hce as [_ Hce]. congruence.
    + destruct Hce as (_ & Hscope & f & -> & _ & Hf).
      rewrite decide_True by congruence. simpl. split.
      * f_equal; [|done]. unfold osinfo_devicelink_get_target. simpl.
        by rewrite Hf.
      * constructor; [by exists f | done].
Qed.

Lemma filter_null_filter (matches : gpointer → bool) (l : GList) :
  List.filter (λ link, is_null NULL || matches link) l = l.
Proof.
  induction l as [|x l IH]; [done|].
  change (x :: List.filter (λ link, is_null NULL || matches link) l = x :: l).
  by rewrite IH.
Qed.

(** * Insertion and the queries *)

Section OsRuns.

Variable osinfo_filter_matches : heap → gpointer → gpointer → bool.

Local Notation get_devices := (osinfo_os_get_devices osinfo_filter_matches).
Local Notation get_device_links :=
  (osinfo_os_get_device_links osinfo_filter_matches).

Lemma get_devices_no_filter h a id priv platform :
  h !! a = Some (OsinfoOs id priv) →
  is_null platform || OSINFO_IS_PLATFORM h platform = true →
  get_devices h (Some a) platform NULL =
  Return (Some (map (osinfo_devicelink_get_target h)
                  (sequence priv (scope_of h platform)))).
Proof.
  intros Ha Hp. rewrite get_devices_ok; try done.
  - rewrite (filter_null_filter (λ link, osinfo_filter_matches h NULL
               (osinfo_devicelink_get_target h link))).
    unfold os_priv. simpl. by rewrite Ha.
  - unfold OSINFO_IS_OS. simpl. by rewrite Ha.
Qed.

(** C4: on an operating system whose index is empty, after any run of
    [osinfo_os_add_device] calls without platform, one per device of
    [devs], every call has returned a link and [osinfo_os_get_devices]
    without platform and without filter returns exactly [devs]: the target
    devices in call order, one element per call, a device linked twice
    appearing twice. *)
Theorem get_devices_in_insertion_order h a id devs log h' :
  h !! a = Some (OsinfoOs id osinfo_os_init) →
  Forall (λ dev, OSINFO_IS_DEVICE h dev = true) devs →
  add_devices (Some a) (map (λ dev, (NULL, dev)) devs) h = (log, h') →
  get_devices h' (Some a) NULL NULL = Return (Some devs)
  ∧ length log = length devs
  ∧ Forall (λ entry, ∃ f, entry.2 = Return (Some f)) log.
Proof.
  intros Ha Hdevs Hrun.
  destruct (add_devices_spec _ _ _ _ _ _ _ Ha Hrun)
    as (Hg & He & Hall & Hnd & priv' & Ha' & Hseq).
  destruct (returned_targets h h' (Some a) None _ _ Hall) as [Ht Hr].
  { apply Forall_fmap. eapply Forall_impl; [exact Hdevs|].
    intros dev Hdev. simpl. split; [|done].
    unfold add_device_precondition, OSINFO_IS_OS. simpl.
    by rewrite Ha, Hdev. }
  split; [|split].
  - rewrite (get_devices_no_filter _ _ _ _ _ Ha') by done.
    change (scope_of h' NULL) with (@None string).
    rewrite Hseq.
    change (sequence osinfo_os_init None) with (@nil gpointer).
    rewrite app_nil_l, Ht.
    rewrite <- list_fmap_compose. simpl. by rewrite list_fmap_id.
  - apply Forall2_length in Hall. by rewrite length_fmap in Hall.
  - done.
Qed.

(** C2: [osinfo_os_add_device] with a platform only adds.  The call
    returns a new link wrapping its device.  When the platform's key
    already has a list, the key has afterwards that list with the new link
    at its end, every other key and the default list being as before; when
    the key is missing, it gets the one-element list.
    Two calls in a row for devices [d1] and [d2] make
    [osinfo_os_get_devices] for that platform return what it returned
    before followed by [d1; d2], hence exactly [d1; d2] when nothing was
    linked under the platform before. *)
Theorem add_device_appends h a id priv platform d1 d2 r1 h1 r2 h2 :
  h !! a = Some (OsinfoOs id priv) →
  OSINFO_IS_PLATFORM h platform = true →
  OSINFO_IS_DEVICE h d1 = true →
  OSINFO_IS_DEVICE h d2 = true →
  osinfo_os_add_device (Some a) platform d1 h = (r1, h1) →
  osinfo_os_add_device (Some a) platform d2 h1 = (r2, h2) →
  let key := osinfo_entity_get_id h platform in
  (∃ f priv1,
      r1 = Return (Some f) ∧ h !! f = None
      ∧ h1 !! f = Some (OsinfoDeviceLink d1 None)
      ∧ h1 !! a = Some (OsinfoOs id priv1)
      ∧ (∀ l, platforms priv !! key = Some l →
              platforms priv1 !! key = Some (l ++ [Some f]))
      ∧ (platforms priv !! key = None →
         platforms priv1 !! key = Some [Some f])
      ∧ (∀ k, k ≠ key → platforms priv1 !! k = platforms priv !! k)
      ∧ deviceLinks priv1 = deviceLinks priv)
  ∧ ((∀ link, link ∈ g_hash_table_lookup (platforms priv) key →
              OSINFO_IS_DEVICELINK h link = true) →
     ∀ before,
       get_devices h (Some a) platform NULL = Return (Some before) →
       get_devices h2 (Some a) platform NULL
       = Return (Some (before ++ [d1; d2])))
  ∧ (g_hash_table_lookup (platforms priv) key = [] →
     get_devices h2 (Some a) platform NULL = Return (Some [d1; d2])).
Proof.
  intros Ha Hp Hd1 Hd2 E1 E2 key.
  assert (is_null platform || OSINFO_IS_PLATFORM h platform = true) as Hp'
    by (rewrite Hp; apply orb_true_r).
  assert (scope_of h platform = Some key) as Hscope.
  { destruct platform; [done|]. by simpl in Hp. }
  assert (∀ before,
    (∀ link, link ∈ g_hash_table_lookup (platforms priv) key →
             OSINFO_IS_DEVICELINK h link = true) →
    get_devices h (Some a) platform NULL = Return (Some before) →
    get_devices h2 (Some a) platform NULL
    = Return (Some (before ++ [d1; d2]))) as Htwo.
  { intros before Hlinks Hbefore.
    rewrite (get_devices_no_filter _ _ _ _ _ Ha Hp'), Hscope in Hbefore.
    injection Hbefore as <-.
    assert (add_devices (Some a) [(platform, d1); (platform, d2)] h
            = ([(scope_of h platform, r1); (scope_of h1 platform, r2)], h2))
      as Hrun by (simpl; by rewrite E1, E2).
    destruct (add_devices_spec _ _ _ _ _ _ _ Ha Hrun)
      as (Hg & He & Hall & Hnd & priv' & Ha' & Hseq).
    destruct (returned_targets h h2 (Some a) (Some key) _ _ Hall)
      as [Ht _].
    { repeat constructor; simpl; try done;
        unfold add_device_precondition, OSINFO_IS_OS; simpl;
        by rewrite Ha, Hp', ?Hd1, ?Hd2. }
    destruct (heap_grows_platform _ _ _ Hg Hp) as [Hp2 Hid].
    rewrite (get_devices_no_filter _ _ _ _ _ Ha')
      by (rewrite Hp2; apply orb_true_r).
    rewrite (heap_grows_scope h h2) by done.
    rewrite Hscope, Hseq, map_app, Ht. simpl.
    by rewrite (map_target_grows h h2). }
  split; [|split].
  - rewrite (add_device_ok _ _ _ _ _ _ Ha Hp' Hd1) in E1.
    injection E1 as <- <-. eexists _, _. split; [done|].
    split; [apply fresh_unused|].
    split.
    { rewrite lookup_insert_ne by (by eapply fresh_ne).
      apply lookup_insert_eq. }
    split; [apply lookup_insert_eq|]. rewrite Hscope. simpl.
    unfold g_hash_table_lookup. repeat split.
    + intros l ->. apply lookup_insert_eq.
    + intros ->. apply lookup_insert_eq.
    + intros k Hk. by apply lookup_insert_ne.
  - intros Hlinks before. by apply Htwo.
  - intros Hempty.
    apply (Htwo []).
    + rewrite Hempty. by intros link ?%elem_of_nil.
    + rewrite (get_devices_no_filter _ _ _ _ _ Ha Hp'), Hscope. simpl.
      by rewrite Hempty.
Qed.

(** C8: after any run of [osinfo_os_add_device] calls on an operating
    system whose index was empty, every association in a result of
    [osinfo_os_get_device_links] is the very pointer that a call of the run
    for the queried scope returned; without filter the result is exactly
    the pointers those calls returned, in call order; and the pointers the
    calls returned are pairwise distinct, so each result element has one
    call it comes from. *)
Theorem get_device_links_returns_added_links h a id calls log h'
    platform filter :
  h !! a = Some (OsinfoOs id osinfo_os_init) →
  add_devices (Some a) calls h = (log, h') →
  is_null platform || OSINFO_IS_PLATFORM h' platform = true →
  is_null filter || OSINFO_IS_FILTER h' filter = true →
  (∃ result,
      get_device_links h' (Some a) platform filter = Return (Some result)
      ∧ result = List.filter
          (λ link, is_null filter || osinfo_filter_matches h' filter link)
          (returned_for (scope_of h' platform) log)
      ∧ ∀ link, link ∈ result →
          ∃ i call, calls !! i = Some call
            ∧ log !! i = Some (scope_of h' platform, Return link))
  ∧ get_device_links h' (Some a) platform NULL
    = Return (Some (returned_for (scope_of h' platform) log))
  ∧ NoDup (returned log).
Proof.
  intros Ha Hrun Hp Hf.
  destruct (add_devices_spec _ _ _ _ _ _ _ Ha Hrun)
    as (Hg & He & Hall & Hnd & priv' & Ha' & Hseq).
  assert (OSINFO_IS_OS h' (Some a) = true) as Hos
    by (unfold OSINFO_IS_OS; simpl; by rewrite Ha').
  assert (os_priv h' (Some a) = priv') as Hpriv
    by (unfold os_priv; simpl; by rewrite Ha').
  assert (∀ s, sequence priv' s = returned_for s log) as Hseq'.
  { intros s. rewrite Hseq. by destruct s. }
  split; [|split].
  - eexists. split; [|split; [reflexivity|]].
    + rewrite get_device_links_ok, Hpriv, Hseq' by done. done.
    + intros link [Hin _]%list_elem_of_In%filter_In.
      apply list_elem_of_In, list_elem_of_omap in Hin
        as ([s r] & Hentry & Hret).
      apply list_elem_of_lookup in Hentry as [i Hi].
      destruct (Forall2_lookup_r _ _ _ _ _ Hall Hi) as (call & Hcall & _).
      exists i, call. split; [done|]. rewrite Hi.
      unfold returned_in in Hret. simpl in Hret.
      destruct r as [|link']; [done|]. case_decide; [|done].
      simpl in *. congruence.
  - rewrite get_device_links_ok, Hpriv, Hseq' by done.
    by rewrite (filter_null_filter (osinfo_filter_matches h' NULL)).
  - done.
Qed.

End OsRuns.

(** * What holds of every reachable index *)

Lemma sequence_init s : sequence osinfo_os_init s = [].
Proof. by destruct s. Qed.

Lemma index_ok_init h : index_ok h osinfo_os_init.
Proof.
  split.
  - intros key l Hl. simpl in Hl. by rewrite lookup_empty in Hl.
  - intros s link Hin. rewrite sequence_init in Hin. by apply elem_of_nil in Hin.
  - intros s. rewrite sequence_init. constructor.
  - intros s1 s2 link Hin. rewrite sequence_init in Hin.
    by apply elem_of_nil in Hin.
Qed.

Lemma index_ok_grows h h' priv :
  heap_grows h h' → index_ok h priv → index_ok h' priv.
Proof.
  intros Hg [H1 H2 H3 H4]. split; try done.
  intros s link Hin. by apply (heap_grows_link h h'), (H2 s).
Qed.

Lemma index_ok_priv_add h h' priv s f :
  heap_grows h h' → index_ok h priv →
  h !! f = None → OSINFO_IS_DEVICELINK h' (Some f) = true →
  index_ok h' (priv_add priv s (Some f)).
Proof.
  intros Hg [H1 H2 H3 H4] Hf Hf'.
  assert (∀ s', Some f ∉ sequence priv s') as Hnew.
  { intros s' Hin. apply H2 in Hin.
    unfold OSINFO_IS_DEVICELINK in Hin. simpl in Hin. by rewrite Hf in Hin. }
  split.
  - intros key l. destruct s as [k|]; simpl; [|by apply H1].
    destruct (decide (k = key)) as [->|Hne].
    + rewrite lookup_insert_eq. intros [= <-].
      by destruct (g_hash_table_lookup (platforms priv) key).
    + rewrite lookup_insert_ne by done. by apply H1.
  - intros s' link. rewrite sequence_priv_add.
    assert (link ∈ sequence priv s' →
            OSINFO_IS_DEVICELINK h' link = true) as Hold
      by (intros Hin; by apply (heap_grows_link h h'), (H2 s')).
    case_decide; [|done].
    intros [Hin | ->%list_elem_of_singleton]%elem_of_app; [by apply Hold|done].
  - intros s'. rewrite sequence_priv_add. case_decide; [|done].
    apply NoDup_app. split; [done|]. split; [|apply NoDup_singleton].
    intros x Hx ->%list_elem_of_singleton. by apply (Hnew s').
  - intros s1 s2 link. rewrite !sequence_priv_add.
    repeat case_decide; subst; try done.
    + intros [Hin1 | ->%list_elem_of_singleton]%elem_of_app Hin2.
      * intros. by apply (H4 _ _ link).
      * by apply Hnew in Hin2.
    + intros Hin1 [Hin2 | ->%list_elem_of_singleton]%elem_of_app.
      * by apply (H4 _ _ link).
      * by apply Hnew in Hin1.
    + apply H4.
Qed.

Lemma heap_ok_empty : heap_ok ∅.
Proof. intros a id priv Ha. by rewrite lookup_empty in Ha. Qed.

Lemma heap_ok_object_new o h :
  (is_os o = false ∨ ∃ id, o = OsinfoOs id osinfo_os_init) →
  heap_ok h → heap_ok (g_object_new o h).2.
Proof.
  intros Ho Hok a id priv. simpl.
  destruct (decide (a = fresh (dom h))) as [->|Hne].
  - rewrite lookup_insert_eq. intros [= ->].
    destruct Ho as [Ho | [id' [= _ ->]]]; [done|]. apply index_ok_init.
  - rewrite lookup_insert_ne by done. intros Ha.
    eapply index_ok_grows; [apply heap_grows_object_new | by eapply Hok].
Qed.

Lemma heap_ok_add_device os platform dev h :
  heap_ok h → heap_ok (osinfo_os_add_device os platform dev h).2.
Proof.
  intros Hok.
  pose proof (heap_grows_add_device os platform dev h) as Hg.
  destruct (add_device_cases h os platform dev)
    as [-> | (a & id & priv & -> & Hos & _ & _ & E)]; [done|].
  rewrite E in Hg |- *. simpl in *.
  intros a' id' priv'. destruct (decide (a' = a)) as [->|Hne].
  - rewrite lookup_insert_eq. intros [= <- <-].
    eapply index_ok_priv_add; [done | by eapply Hok | apply fresh_unused |].
    unfold OSINFO_IS_DEVICELINK. simpl.
    rewrite lookup_insert_ne by (by eapply fresh_ne).
    by rewrite lookup_insert_eq.
  - rewrite lookup_insert_ne by done.
    destruct (decide (a' = fresh (dom h))) as [->|Hne'].
    + by rewrite lookup_insert_eq.
    + rewrite lookup_insert_ne by done. intros Ha'.
      eapply index_ok_grows; [done | by eapply Hok].
Qed.

Lemma heap_ok_step h h' : step h h' → heap_ok h → heap_ok h'.
Proof.
  destruct 1.
  - apply heap_ok_object_new. right. by eexists.
  - apply heap_ok_object_new. by left.
  - apply heap_ok_add_device.
Qed.

Lemma heap_ok_steps h h' : rtc step h h' → heap_ok h → heap_ok h'.
Proof.
  induction 1 as [|h1 h2 h3 Hs _ IH]; [done|].
  intros Hok. by apply IH, (heap_ok_step h1).
Qed.

Lemma reachable_heap_ok h : reachable h → heap_ok h.
Proof. intros Hr. apply (heap_ok_steps ∅ h Hr), heap_ok_empty. Qed.

(** C9: in every heap reached from the empty one, every platform
    identifier that is a key of an operating system's hash table maps to a
    non-empty list of associations. *)
Theorem platform_keys_nonempty h a id priv key l :
  reachable h →
  h !! a = Some (OsinfoOs id priv) →
  platforms priv !! key = Some l →
  l ≠ [].
Proof.
  intros Hr Ha. apply (index_nonempty h priv).
  by apply (reachable_heap_ok h Hr a id).
Qed.

Lemma reachable_step h h' : reachable h → step h h' → reachable h'.
Proof. intros Hr Hs. by eapply rtc_r. Qed.

Lemma reachable_steps h h' : reachable h → rtc step h h' → reachable h'.
Proof. intros Hr Hs. unfold reachable. by etrans. Qed.

Section OsIsolation.

Variable osinfo_filter_matches : heap → gpointer → gpointer → bool.

Local Notation get_devices := (osinfo_os_get_devices osinfo_filter_matches).

Lemma get_devices_same_entities_fail h h' a platform :
  same_entities h h' →
  is_null platform || OSINFO_IS_PLATFORM h platform = false →
  get_devices h' (Some a) platform NULL
  = get_devices h (Some a) platform NULL.
Proof.
  intros He Hp. unfold osinfo_os_get_devices, g_return_val_if_fail.
  destruct (He (Some a)) as (-> & _).
  destruct (He platform) as (_ & -> & _). rewrite Hp.
  by destruct (OSINFO_IS_OS h (Some a)).
Qed.

(** A call for one scope leaves the answer for any other scope alone. *)
Lemma add_device_other_scope h a id priv platformA platformB dev :
  index_ok h priv →
  h !! a = Some (OsinfoOs id priv) →
  scope_of h platformA ≠ scope_of h platformB →
  get_devices (osinfo_os_add_device (Some a) platformA dev h).2
    (Some a) platformB NULL
  = get_devices h (Some a) platformB NULL.
Proof.
  intros Hok Ha Hne.
  pose proof (heap_grows_add_device (Some a) platformA dev h) as Hg.
  pose proof (same_entities_add_device (Some a) platformA dev h) as He.
  destruct (add_device_cases h (Some a) platformA dev)
    as [E | (a' & id' & priv' & [= <-] & Ha' & _ & _ & E)];
    rewrite E in Hg, He |- *; [done|].
  rewrite Ha in Ha'. injection Ha' as <- <-. simpl in *.
  destruct (is_null platformB || OSINFO_IS_PLATFORM h platformB) eqn:Hp;
    [|by apply get_devices_same_entities_fail].
  rewrite (get_devices_no_filter _ h a id priv) by done.
  erewrite get_devices_no_filter; [|apply lookup_insert_eq|].
  - rewrite (same_entities_scope h _ platformB He).
    rewrite sequence_priv_add, decide_False by done.
    f_equal. f_equal. apply map_target_grows; [done|].
    intros link. apply (index_links h priv Hok).
  - destruct (He platformB) as (_ & -> & _). done.
Qed.

(** The devices of an answer without filter are the targets of the
    associations of the queried sequence. *)
Lemma get_devices_no_filter_elem h a id priv platform result dev :
  h !! a = Some (OsinfoOs id priv) →
  get_devices h (Some a) platform NULL = Return (Some result) →
  dev ∈ result →
  ∃ link, link ∈ sequence priv (scope_of h platform)
          ∧ osinfo_devicelink_get_target h link = dev.
Proof.
  intros Ha.
  destruct (is_null platform || OSINFO_IS_PLATFORM h platform) eqn:Hp.
  - rewrite (get_devices_no_filter _ h a id priv) by done.
    intros [= <-] (link & -> & Hin)%list_elem_of_fmap. by exists link.
  - unfold osinfo_os_get_devices, g_return_val_if_fail. rewrite Hp.
    by destruct (OSINFO_IS_OS h (Some a)).
Qed.

(** The association a call creates is, from then on, in the sequence of
    the call's scope and in no other. *)
Lemma added_link_stays_in_scope h a id priv platform dev link h1 h2 priv2 :
  reachable h →
  h !! a = Some (OsinfoOs id priv) →
  osinfo_os_add_device (Some a) platform dev h = (Return link, h1) →
  rtc step h1 h2 →
  h2 !! a = Some (OsinfoOs id priv2) →
  ∀ s, link ∈ sequence priv2 s ↔ s = scope_of h platform.
Proof.
  intros Hr Ha Hadd Hsteps Ha2.
  assert (reachable h2) as Hr2.
  { eapply reachable_steps; [|exact Hsteps].
    eapply reachable_step; [exact Hr|].
    replace h1 with (osinfo_os_add_device (Some a) platform dev h).2
      by (by rewrite Hadd).
    apply step_add_device. }
  pose proof (reachable_heap_ok h2 Hr2 a id priv2 Ha2) as Hok2.
  destruct (add_device_cases h (Some a) platform dev)
    as [E | (a' & id' & priv' & [= <-] & Ha' & _ & _ & E)];
    rewrite E in Hadd; [done|].
  rewrite Ha in Ha'. injection Ha' as <- <-.
  injection Hadd as <- <-.
  set (f := fresh (dom h)) in *.
  set (h1 := <[a := _]> _) in *.
  assert (h1 !! a = Some (OsinfoOs id
            (priv_add priv (scope_of h platform) (Some f)))) as Ha1
    by apply lookup_insert_eq.
  destruct (heap_grows_os h1 h2 _ _ _ (heap_grows_steps _ _ Hsteps) Ha1)
    as (priv2' & Ha2' & Hprefix).
  rewrite Ha2 in Ha2'. injection Ha2' as <-.
  assert (Some f ∈ sequence priv2 (scope_of h platform)) as Hin.
  { destruct (Hprefix (scope_of h platform)) as [k ->].
    rewrite sequence_priv_add, decide_True by done.
    apply elem_of_app. left. apply elem_of_app. right.
    by apply list_elem_of_singleton. }
  intros s. split.
  - intros Hin'. by apply (index_disjoint h2 priv2 Hok2 s _ (Some f)).
  - by intros ->.
Qed.

(** C5, as the code has it: in every reachable heap the default sequence
    and the per-platform sequences of an operating system have no
    association in common; the association a call of
    [osinfo_os_add_device] creates is, from then on, in the sequence of the
    call's scope and in no other; and a call for one scope leaves what
    [osinfo_os_get_devices] without filter returns for any other scope as
    it was before the call, so that a device found in that result is the
    target of an association recorded under that other scope before the
    call. *)
Theorem sequences_disjoint h a id priv :
  reachable h →
  h !! a = Some (OsinfoOs id priv) →
  (∀ s1 s2 link,
     s1 ≠ s2 → link ∈ sequence priv s1 → link ∉ sequence priv s2)
  ∧ (∀ platform dev link h1 h2 priv2,
       osinfo_os_add_device (Some a) platform dev h = (Return link, h1) →
       rtc step h1 h2 →
       h2 !! a = Some (OsinfoOs id priv2) →
       ∀ s, link ∈ sequence priv2 s ↔ s = scope_of h platform)
  ∧ (∀ platformA platformB dev,
       scope_of h platformA ≠ scope_of h platformB →
       get_devices (osinfo_os_add_device (Some a) platformA dev h).2
         (Some a) platformB NULL
       = get_devices h (Some a) platformB NULL
       ∧ ∀ result,
           get_devices (osinfo_os_add_device (Some a) platformA dev h).2
             (Some a) platformB NULL = Return (Some result) →
           dev ∈ result →
           ∃ link, link ∈ sequence priv (scope_of h platformB)
                   ∧ osinfo_devicelink_get_target h link = dev).
Proof.
  intros Hr Ha. pose proof (reachable_heap_ok h Hr a id priv Ha) as Hok.
  split; [|split].
  - intros s1 s2 link Hne Hin1 Hin2. apply Hne.
    by apply (index_disjoint h priv Hok s1 s2 link).
  - intros platform dev link h1 h2 priv2.
    by apply (added_link_stays_in_scope h a id priv).
  - intros platformA platformB dev Hne.
    pose proof (add_device_other_scope h a id priv platformA platformB dev
                  Hok Ha Hne) as Hsame.
    split; [exact Hsame|]. intros result. rewrite Hsame.
    by apply (get_devices_no_filter_elem h a id).
Qed.

End OsIsolation.

(** * The concrete world *)

Lemma start_reachable : reachable World.start.
Proof.
  unfold reachable.
  eapply rtc_r; [|exact (step_object_new (OsinfoFilter [("id", "e1000")])
                           World.w5 eq_refl)].
  eapply rtc_r; [|exact (step_object_new (OsinfoDevice "e1000")
                           World.w4 eq_refl)].
  eapply rtc_r; [|exact (step_object_new (OsinfoDevice "virtio-net")
                           World.w3 eq_refl)].
  eapply rtc_r; [|exact (step_object_new (OsinfoPlatform "xen")
                           World.w2 eq_refl)].
  eapply rtc_r; [|exact (step_object_new (OsinfoPlatform "kvm")
                           World.w1 eq_refl)].
  eapply rtc_r; [apply rtc_refl | exact (step_os_new "fedora" ∅)].
Qed.

Lemma kvm1_reachable : reachable World.kvm1.
Proof.
  eapply reachable_step; [exact start_reachable|].
  exact (step_add_device World.fedora World.kvm World.virtio World.start).
Qed.

(** C1: the two preferred queries do not take an absent filter.  In a heap
    whose operating system has [virtio] and [e1000] linked without
    platform, [osinfo_os_get_devices] without filter returns both devices,
    while [osinfo_os_get_preferred_device_link] and
    [osinfo_os_get_preferred_device] without filter fail their filter check
    and return [NULL] instead of the first association and its device. *)
Theorem preferred_queries_reject_absent_filter :
  osinfo_os_get_devices constraints_match World.default2 World.fedora
    NULL NULL = Return (Some [World.virtio; World.e1000])
  ∧ osinfo_os_get_device_links constraints_match World.default2 World.fedora
      NULL NULL = Return (Some [Some 7%positive; Some 8%positive])
  ∧ osinfo_os_get_preferred_device_link constraints_match World.default2
      World.fedora NULL NULL = Critical NULL
  ∧ osinfo_os_get_preferred_device constraints_match World.default2
      World.fedora NULL NULL = Critical NULL.
Proof. vm_compute. done. Qed.

(** The literal reading of C5's last sentence fails: with [virtio] already
    linked under [kvm], linking it under [xen] is followed by a query for
    [kvm] whose result has [virtio]. *)
Lemma other_platform_result_may_hold_device :
  reachable World.kvm1
  ∧ OSINFO_IS_OS World.kvm1 World.fedora = true
  ∧ OSINFO_IS_PLATFORM World.kvm1 World.xen = true
  ∧ OSINFO_IS_PLATFORM World.kvm1 World.kvm = true
  ∧ osinfo_entity_get_id World.kvm1 World.xen
    ≠ osinfo_entity_get_id World.kvm1 World.kvm
  ∧ OSINFO_IS_DEVICE World.kvm1 World.virtio = true
  ∧ ∃ result,
      osinfo_os_get_devices constraints_match
        (osinfo_os_add_device World.fedora World.xen World.virtio
           World.kvm1).2
        World.fedora World.kvm NULL = Return (Some result)
      ∧ World.virtio ∈ result.
Proof.
  split; [exact kvm1_reachable|].
  repeat split; try (by vm_compute).
  exists [World.virtio]. split; [by vm_compute|]. apply list_elem_of_here.
Qed.

(** * The theorems at concrete inputs *)

Lemma add_device_appends_witness :
  World.start !! 1%positive = Some (OsinfoOs "fedora" osinfo_os_init)
  ∧ OSINFO_IS_PLATFORM World.start World.kvm = true
  ∧ OSINFO_IS_DEVICE World.start World.virtio = true
  ∧ OSINFO_IS_DEVICE World.start World.e1000 = true
  ∧ g_hash_table_lookup (platforms osinfo_os_init)
      (osinfo_entity_get_id World.start World.kvm) = []
  ∧ osinfo_os_get_devices constraints_match
      (osinfo_os_add_device World.fedora World.kvm World.e1000
         World.kvm1).2
      World.fedora World.kvm NULL
    = Return (Some [World.virtio; World.e1000]).
Proof.
  assert (World.start !! 1%positive
          = Some (OsinfoOs "fedora" osinfo_os_init)) as H1
    by (vm_compute; reflexivity).
  assert (OSINFO_IS_PLATFORM World.start World.kvm = true) as H2
    by (vm_compute; reflexivity).
  assert (OSINFO_IS_DEVICE World.start World.virtio = true) as H3
    by (vm_compute; reflexivity).
  assert (OSINFO_IS_DEVICE World.start World.e1000 = true) as H4
    by (vm_compute; reflexivity).
  assert (g_hash_table_lookup (platforms osinfo_os_init)
            (osinfo_entity_get_id World.start World.kvm) = []) as H5
    by (vm_compute; reflexivity).
  repeat (split; [assumption|]).
  exact (proj2 (proj2
    (add_device_appends constraints_match World.start 1%positive "fedora"
       osinfo_os_init World.kvm World.virtio World.e1000 _ _ _ _
       H1 H2 H3 H4
       (surjective_pairing
          (osinfo_os_add_device World.fedora World.kvm World.virtio
             World.start))
       (surjective_pairing
          (osinfo_os_add_device World.fedora World.kvm World.e1000
             World.kvm1)))) H5).
Defined.

Lemma preferred_device_link_first_match_witness :
  OSINFO_IS_OS World.default2 World.fedora = true
  ∧ is_null NULL || OSINFO_IS_PLATFORM World.default2 NULL = true
  ∧ OSINFO_IS_FILTER World.default2 World.only_e1000 = true
  ∧ ((∃ before link after,
        sequence (os_priv World.default2 World.fedora)
          (scope_of World.default2 NULL) = before ++ link :: after
        ∧ Forall (λ l, constraints_match World.default2 World.only_e1000
                         (osinfo_devicelink_get_target World.default2 l)
                       = false) before
        ∧ constraints_match World.default2 World.only_e1000
            (osinfo_devicelink_get_target World.default2 link) = true
        ∧ osinfo_os_get_preferred_device_link constraints_match
            World.default2 World.fedora NULL World.only_e1000
          = Return link)
     ∨ (Forall (λ l, constraints_match World.default2 World.only_e1000
                       (osinfo_devicelink_get_target World.default2 l)
                     = false)
          (sequence (os_priv World.default2 World.fedora)
             (scope_of World.default2 NULL))
        ∧ osinfo_os_get_preferred_device_link constraints_match
            World.default2 World.fedora NULL World.only_e1000
          = Return NULL)).
Proof.
  assert (OSINFO_IS_OS World.default2 World.fedora = true) as H1
    by (vm_compute; reflexivity).
  assert (is_null NULL || OSINFO_IS_PLATFORM World.default2 NULL = true)
    as H2 by reflexivity.
  assert (OSINFO_IS_FILTER World.default2 World.only_e1000 = true) as H3
    by (vm_compute; reflexivity).
  repeat (split; [assumption|]).
  exact (preferred_device_link_first_match constraints_match
           World.default2 World.fedora NULL World.only_e1000 H1 H2 H3).
Defined.

Lemma get_devices_in_insertion_order_witness :
  World.start !! 1%positive = Some (OsinfoOs "fedora" osinfo_os_init)
  ∧ Forall (λ dev, OSINFO_IS_DEVICE World.start dev = true)
      [World.virtio; World.e1000; World.virtio]
  ∧ osinfo_os_get_devices constraints_match
      (add_devices World.fedora
         (map (λ dev, (NULL, dev)) [World.virtio; World.e1000; World.virtio])
         World.start).2
      World.fedora NULL NULL
    = Return (Some [World.virtio; World.e1000; World.virtio]).
Proof.
  assert (World.start !! 1%positive
          = Some (OsinfoOs "fedora" osinfo_os_init)) as H1
    by (vm_compute; reflexivity).
  assert (Forall (λ dev, OSINFO_IS_DEVICE World.start dev = true)
            [World.virtio; World.e1000; World.virtio]) as H2
    by (repeat constructor; vm_compute; reflexivity).
  repeat (split; [assumption|]).
  exact (proj1
    (get_devices_in_insertion_order constraints_match World.start 1%positive
       "fedora" [World.virtio; World.e1000; World.virtio] _ _ H1 H2
       (surjective_pairing _))).
Defined.

Lemma sequences_disjoint_witness :
  reachable World.kvm1
  ∧ World.kvm1 !! 1%positive
    = Some (OsinfoOs "fedora" (os_priv World.kvm1 World.fedora))
  ∧ scope_of World.kvm1 World.xen ≠ scope_of World.kvm1 World.kvm
  ∧ osinfo_os_get_devices constraints_match
      (osinfo_os_add_device World.fedora World.xen World.virtio
         World.kvm1).2
      World.fedora World.kvm NULL
    = osinfo_os_get_devices constraints_match World.kvm1 World.fedora
        World.kvm NULL.
Proof.
  assert (World.kvm1 !! 1%positive
          = Some (OsinfoOs "fedora" (os_priv World.kvm1 World.fedora)))
    as H1 by (vm_compute; reflexivity).
  assert (scope_of World.kvm1 World.xen ≠ scope_of World.kvm1 World.kvm)
    as H2 by (vm_compute; discriminate).
  split; [exact kvm1_reachable|]. repeat (split; [assumption|]).
  exact (proj1 (proj2 (proj2
    (sequences_disjoint constraints_match World.kvm1 1%positive "fedora"
       (os_priv World.kvm1 World.fedora) kvm1_reachable H1))
    World.xen World.kvm World.virtio H2)).
Defined.

Lemma empty_platform_queries_witness :
  OSINFO_IS_OS World.kvm1 World.fedora = true
  ∧ OSINFO_IS_PLATFORM World.kvm1 World.xen = true
  ∧ platforms (os_priv World.kvm1 World.fedora)
      !! osinfo_entity_get_id World.kvm1 World.xen = None
  ∧ OSINFO_IS_FILTER World.kvm1 World.only_e1000 = true
  ∧ osinfo_os_get_devices constraints_match World.kvm1 World.fedora
      World.xen NULL = Return (Some [])
  ∧ osinfo_os_get_device_links constraints_match World.kvm1 World.fedora
      World.xen NULL = Return (Some [])
  ∧ osinfo_os_get_preferred_device_link constraints_match World.kvm1
      World.fedora World.xen World.only_e1000 = Return NULL
  ∧ osinfo_os_get_preferred_device constraints_match World.kvm1
      World.fedora World.xen World.only_e1000 = Return NULL.
Proof.
  assert (OSINFO_IS_OS World.kvm1 World.fedora = true) as H1
    by (vm_compute; reflexivity).
  assert (OSINFO_IS_PLATFORM World.kvm1 World.xen = true) as H2
    by (vm_compute; reflexivity).
  assert (platforms (os_priv World.kvm1 World.fedora)
            !! osinfo_entity_get_id World.kvm1 World.xen = None) as H3
    by (vm_compute; reflexivity).
  assert (OSINFO_IS_FILTER World.kvm1 World.only_e1000 = true) as H4
    by (vm_compute; reflexivity).
  repeat (split; [assumption|]).
  destruct (empty_platform_queries constraints_match World.kvm1
              World.fedora World.xen H1 H2 (or_introl H3))
    as (Hlists & Hpreferred & _).
  destruct (Hlists NULL eq_refl) as [Hd Hl].
  destruct (Hpreferred World.only_e1000 H4) as [Hpl Hpd].
  repeat split; assumption.
Defined.

Lemma get_device_links_filters_links_witness :
  OSINFO_IS_OS World.default2 World.fedora = true
  ∧ is_null NULL || OSINFO_IS_PLATFORM World.default2 NULL = true
  ∧ is_null World.only_e1000
    || OSINFO_IS_FILTER World.default2 World.only_e1000 = true
  ∧ osinfo_os_get_device_links constraints_match World.default2
      World.fedora NULL World.only_e1000
    = Return (Some (List.filter
        (λ link, is_null World.only_e1000
                 || constraints_match World.default2 World.only_e1000 link)
        (sequence (os_priv World.default2 World.fedora)
           (scope_of World.default2 NULL)))).
Proof.
  assert (OSINFO_IS_OS World.default2 World.fedora = true) as H1
    by (vm_compute; reflexivity).
  assert (is_null NULL || OSINFO_IS_PLATFORM World.default2 NULL = true)
    as H2 by reflexivity.
  assert (is_null World.only_e1000
          || OSINFO_IS_FILTER World.default2 World.only_e1000 = true) as H3
    by (vm_compute; reflexivity).
  repeat (split; [assumption|]).
  exact (proj1
    (get_device_links_filters_links constraints_match World.default2
       World.fedora NULL World.only_e1000 H1 H2 H3)).
Defined.

Lemma get_device_links_returns_added_links_witness :
  World.start !! 1%positive = Some (OsinfoOs "fedora" osinfo_os_init)
  ∧ is_null World.kvm
    || OSINFO_IS_PLATFORM
         (add_devices World.fedora
            [(World.kvm, World.virtio); (NULL, World.e1000);
             (World.kvm, World.e1000)] World.start).2 World.kvm = true
  ∧ osinfo_os_get_device_links constraints_match
      (add_devices World.fedora
         [(World.kvm, World.virtio); (NULL, World.e1000);
          (World.kvm, World.e1000)] World.start).2
      World.fedora World.kvm NULL
    = Return (Some (returned_for
        (scope_of
           (add_devices World.fedora
              [(World.kvm, World.virtio); (NULL, World.e1000);
               (World.kvm, World.e1000)] World.start).2 World.kvm)
        (add_devices World.fedora
           [(World.kvm, World.virtio); (NULL, World.e1000);
            (World.kvm, World.e1000)] World.start).1)).
Proof.
  assert (World.start !! 1%positive
          = Some (OsinfoOs "fedora" osinfo_os_init)) as H1
    by (vm_compute; reflexivity).
  assert (is_null World.kvm
    || OSINFO_IS_PLATFORM
         (add_devices World.fedora
            [(World.kvm, World.virtio); (NULL, World.e1000);
             (World.kvm, World.e1000)] World.start).2 World.kvm = true)
    as H2 by (vm_compute; reflexivity).
  repeat (split; [assumption|]).
  exact (proj1 (proj2
    (get_device_links_returns_added_links constraints_match World.start
       1%positive "fedora"
       [(World.kvm, World.virtio); (NULL, World.e1000);
        (World.kvm, World.e1000)] _ _ World.kvm NULL H1
       (surjective_pairing _) H2 eq_refl))).
Defined.

Lemma platform_keys_nonempty_witness :
  reachable World.kvm1
  ∧ World.kvm1 !! 1%positive
    = Some (OsinfoOs "fedora" (os_priv World.kvm1 World.fedora))
  ∧ platforms (os_priv World.kvm1 World.fedora) !! "kvm"
    = Some [Some 7%positive]
  ∧ [Some 7%positive] ≠ [].
Proof.
  assert (World.kvm1 !! 1%positive
          = Some (OsinfoOs "fedora" (os_priv World.kvm1 World.fedora)))
    as H1 by (vm_compute; reflexivity).
  assert (platforms (os_priv World.kvm1 World.fedora) !! "kvm"
          = Some [Some 7%positive]) as H2 by (vm_compute; reflexivity).
  split; [exact kvm1_reachable|]. repeat (split; [assumption|]).
  exact (platform_keys_nonempty World.kvm1 1%positive "fedora"
           (os_priv World.kvm1 World.fedora) "kvm" [Some 7%positive]
           kvm1_reachable H1 H2).
Defined.

Lemma invalid_arguments_return_null_witness :
  OSINFO_IS_OS World.start World.kvm = false
  ∧ OSINFO_IS_OS World.start World.fedora = true
  ∧ OSINFO_IS_PLATFORM World.start World.kvm = true
  ∧ sequence (os_priv World.start World.fedora)
      (scope_of World.start World.kvm) = []
  ∧ osinfo_os_add_device World.kvm World.virtio World.kvm World.start
    = (Critical NULL, World.start)
  ∧ osinfo_os_get_preferred_device_link constraints_match World.start
      World.kvm World.virtio World.e1000 = Critical NULL
  ∧ osinfo_os_get_preferred_device constraints_match World.start
      World.kvm World.virtio World.e1000 = Critical NULL
  ∧ osinfo_os_get_devices constraints_match World.start
      World.kvm World.virtio World.e1000 = Critical None
  ∧ osinfo_os_get_device_links constraints_match World.start
      World.kvm World.virtio World.e1000 = Critical None
  ∧ retval (osinfo_os_get_devices constraints_match World.start
              World.kvm World.virtio World.e1000)
    ≠ retval (osinfo_os_get_devices constraints_match World.start
                World.fedora World.kvm NULL).
Proof.
  assert (OSINFO_IS_OS World.start World.kvm = false) as H1
    by (vm_compute; reflexivity).
  assert (OSINFO_IS_OS World.start World.fedora = true) as H2
    by (vm_compute; reflexivity).
  assert (OSINFO_IS_PLATFORM World.start World.kvm = true) as H3
    by (vm_compute; reflexivity).
  assert (sequence (os_priv World.start World.fedora)
            (scope_of World.start World.kvm) = []) as H4
    by (vm_compute; reflexivity).
  repeat (split; [assumption|]).
  destruct (invalid_arguments_return_null constraints_match World.start
              World.kvm World.virtio World.kvm World.e1000)
    as (Hadd & Hpreferred & Hlists).
  destruct (Hpreferred (or_introl H1)) as [Hpl Hpd].
  destruct (Hlists (or_introl H1)) as (Hd & Hl & Hdistinct).
  destruct (Hdistinct World.start World.fedora World.kvm NULL H2 H3
              eq_refl H4) as (_ & _ & Hne & _).
  split; [exact (Hadd (or_introl H1))|].
  repeat (split; [assumption|]). exact Hne.
Defined.

(** * How the queries relate to each other *)

Lemma filter_sublist {A B} (f : A → B) (keep : A → bool) (l : list A) :
  map f (List.filter keep l) `sublist_of` map f l.
Proof.
  induction l as [|x l IH]; simpl; [constructor|].
  destruct (keep x); simpl; by constructor.
Qed.


Section OsRelations.

Variable osinfo_filter_matches : heap → gpointer → gpointer → bool.

Local Notation get_preferred_device_link :=
  (osinfo_os_get_preferred_device_link osinfo_filter_matches).
Local Notation get_preferred_device :=
  (osinfo_os_get_preferred_device osinfo_filter_matches).
Local Notation get_devices := (osinfo_os_get_devices osinfo_filter_matches).
Local Notation get_device_links :=
  (osinfo_os_get_device_links osinfo_filter_matches).

(** Without filter the two list queries pass the same checks and walk the
    same list: either both fail, or [osinfo_os_get_devices] returns the
    targets of what [osinfo_os_get_device_links] returns, element by
    element. *)
Theorem devices_are_targets_of_links h os platform :
  (get_device_links h os platform NULL = Critical None
   ∧ get_devices h os platform NULL = Critical None)
  ∨ ∃ links,
      get_device_links h os platform NULL = Return (Some links)
      ∧ get_devices h os platform NULL
        = Return (Some (map (osinfo_devicelink_get_target h) links)).
Proof.
  destruct (OSINFO_IS_OS h os) eqn:Hos;
    [destruct (is_null platform || OSINFO_IS_PLATFORM h platform) eqn:Hp|].
  - right. eexists. split.
    + by apply get_device_links_ok.
    + rewrite get_devices_ok by done.
      rewrite (filter_null_filter (osinfo_filter_matches h NULL)).
      by rewrite (filter_null_filter (λ link, osinfo_filter_matches h NULL
                    (osinfo_devicelink_get_target h link))).
  - left. unfold osinfo_os_get_device_links, osinfo_os_get_devices,
      g_return_val_if_fail. by rewrite Hos, Hp.
  - left. unfold osinfo_os_get_device_links, osinfo_os_get_devices,
      g_return_val_if_fail. by rewrite Hos.
Qed.

Lemma preferred_loop_target h filter tmp :
  osinfo_devicelink_get_target h
    (preferred_device_link_loop osinfo_filter_matches h filter tmp)
  = hd NULL (map (osinfo_devicelink_get_target h)
       (List.filter
          (λ link, is_null filter
                   || osinfo_filter_matches h filter
                        (osinfo_devicelink_get_target h link)) tmp)).
Proof.
  induction tmp as [|link tmp IH]; simpl; [done|].
  by destruct (is_null filter || _).
Qed.

Lemma preferred_loop_elem h filter tmp link :
  preferred_device_link_loop osinfo_filter_matches h filter tmp = Some link →
  Some link ∈ tmp.
Proof.
  induction tmp as [|data tmp IH]; simpl; [done|].
  destruct (is_null filter || _).
  - intros ->. apply list_elem_of_here.
  - intros Hl. apply list_elem_of_further. by apply IH.
Qed.

(** With a valid filter, the preferred device is the first element of what
    [osinfo_os_get_devices] returns for the same arguments ([NULL] when that
    list is empty); it is the target of the preferred link; and the
    preferred link, when there is one, is among the links
    [osinfo_os_get_device_links] returns without filter. *)
Theorem preferred_device_is_first_device h os platform filter :
  OSINFO_IS_OS h os = true →
  is_null platform || OSINFO_IS_PLATFORM h platform = true →
  OSINFO_IS_FILTER h filter = true →
  ∃ devs links preferred,
    get_devices h os platform filter = Return (Some devs)
    ∧ get_device_links h os platform NULL = Return (Some links)
    ∧ get_preferred_device_link h os platform filter = Return preferred
    ∧ get_preferred_device h os platform filter = Return (hd NULL devs)
    ∧ osinfo_devicelink_get_target h preferred = hd NULL devs
    ∧ (preferred ≠ NULL → preferred ∈ links).
Proof.
  intros Hos Hp Hf.
  assert (is_null filter || OSINFO_IS_FILTER h filter = true) as Hf'
    by (rewrite Hf; apply orb_true_r).
  eexists _, _, _.
  split; [by apply get_devices_ok|].
  split; [by apply get_device_links_ok|].
  split; [by apply get_preferred_device_link_ok|].
  rewrite (filter_null_filter (osinfo_filter_matches h NULL)).
  split; [|split].
  - rewrite get_preferred_device_ok by done. f_equal.
    apply preferred_loop_target.
  - apply preferred_loop_target.
  - destruct (preferred_device_link_loop _ _ _ _) as [link|] eqn:E; [|done].
    intros _. by eapply preferred_loop_elem.
Qed.

(** A filter only narrows: what a list query returns with a filter is a
    subsequence of what it returns without one, so filtering never adds an
    element and never changes the order. *)
Theorem filter_only_narrows h os platform filter :
  OSINFO_IS_OS h os = true →
  is_null platform || OSINFO_IS_PLATFORM h platform = true →
  is_null filter || OSINFO_IS_FILTER h filter = true →
  ∃ devs all_devs links all_links,
    get_devices h os platform filter = Return (Some devs)
    ∧ get_devices h os platform NULL = Return (Some all_devs)
    ∧ devs `sublist_of` all_devs
    ∧ get_device_links h os platform filter = Return (Some links)
    ∧ get_device_links h os platform NULL = Return (Some all_links)
    ∧ links `sublist_of` all_links.
Proof.
  intros Hos Hp Hf. eexists _, _, _, _.
  split; [by apply get_devices_ok|].
  split; [by apply get_devices_ok|].
  rewrite (filter_null_filter (λ link, osinfo_filter_matches h NULL
             (osinfo_devicelink_get_target h link))).
  split; [apply filter_sublist|].
  split; [by apply get_device_links_ok|].
  split; [by apply get_device_links_ok|].
  rewrite (filter_null_filter (osinfo_filter_matches h NULL)).
  rewrite <- (map_id (List.filter _ _)).
  rewrite <- (map_id (sequence _ _)) at 2. apply filter_sublist.
Qed.

(** A platform counts by its identifier, not by its instance: two platform
    instances with the same identifier select the same sequence, so the
    four queries answer the same for both and [osinfo_os_add_device] does
    the same for both. *)
Theorem platforms_with_same_id h os platform1 platform2 dev filter :
  OSINFO_IS_PLATFORM h platform1 = true →
  OSINFO_IS_PLATFORM h platform2 = true →
  osinfo_entity_get_id h platform1 = osinfo_entity_get_id h platform2 →
  get_devices h os platform1 filter = get_devices h os platform2 filter
  ∧ get_device_links h os platform1 filter
    = get_device_links h os platform2 filter
  ∧ get_preferred_device_link h os platform1 filter
    = get_preferred_device_link h os platform2 filter
  ∧ get_preferred_device h os platform1 filter
    = get_preferred_device h os platform2 filter
  ∧ osinfo_os_add_device os platform1 dev h
    = osinfo_os_add_device os platform2 dev h.
Proof.
  intros H1 H2 Hid.
  pose proof H1 as (a1 & id1 & -> & Ha1)%IS_PLATFORM_inv.
  pose proof H2 as (a2 & id2 & -> & Ha2)%IS_PLATFORM_inv.
  assert (osinfo_os_get_preferred_device_link osinfo_filter_matches h os
            (Some a1) filter
          = osinfo_os_get_preferred_device_link osinfo_filter_matches h os
              (Some a2) filter) as Hlink.
  { unfold osinfo_os_get_preferred_device_link. simpl.
    by rewrite H1, H2, Hid. }
  split; [|split; [|split; [|split]]].
  - unfold osinfo_os_get_devices. simpl. by rewrite H1, H2, Hid.
  - unfold osinfo_os_get_device_links. simpl. by rewrite H1, H2, Hid.
  - done.
  - unfold osinfo_os_get_preferred_device. simpl.
    by rewrite H1, H2, Hlink.
  - unfold osinfo_os_add_device. simpl. rewrite H1, H2.
    destruct (OSINFO_IS_OS h os); simpl; [|done].
    destruct (OSINFO_IS_DEVICE h dev); simpl; [|done].
    assert (osinfo_entity_get_id
              (<[fresh (dom h) := OsinfoDeviceLink dev None]> h) (Some a1)
            = osinfo_entity_get_id
                (<[fresh (dom h) := OsinfoDeviceLink dev None]> h) (Some a2))
      as ->; [|done].
    pose proof (fresh_ne _ _ _ Ha1) as Hn1.
    pose proof (fresh_ne _ _ _ Ha2) as Hn2.
    unfold osinfo_entity_get_id in *. simpl in *.
    by rewrite !lookup_insert_ne by done.
Qed.

End OsRelations.

(** * Creation, insertion and growth *)

Lemma add_devices_steps os calls : ∀ h,
  rtc step h (add_devices os calls h).2.
Proof.
  induction calls as [|[platform dev] calls IH]; intros h; simpl.
  - apply rtc_refl.
  - pose proof (step_add_device os platform dev h) as Hs.
    destruct (osinfo_os_add_device os platform dev h) as [r h1].
    pose proof (IH h1) as Hrest.
    destruct (add_devices os calls h1) as [log h2]. simpl in *.
    by eapply rtc_l.
Qed.

Lemma add_device_critical_iff os platform dev h :
  (osinfo_os_add_device os platform dev h).1 = Critical NULL
  ↔ add_device_precondition h os (platform, dev) = false.
Proof.
  unfold add_device_precondition. simpl. split.
  - intros Hc.
    destruct (OSINFO_IS_OS h os
              && (is_null platform || OSINFO_IS_PLATFORM h platform)
              && OSINFO_IS_DEVICE h dev) eqn:E; [|done].
    apply andb_prop in E as [E Hd]. apply andb_prop in E as [Hos Hp].
    apply IS_OS_inv in Hos as (a & id & priv & -> & Hos).
    by rewrite (add_device_ok _ _ _ _ _ _ Hos Hp Hd) in Hc.
  - intros Hpre. by rewrite add_device_fail.
Qed.

Section OsGrowth.

Variable osinfo_filter_matches : heap → gpointer → gpointer → bool.

Local Notation get_preferred_device_link :=
  (osinfo_os_get_preferred_device_link osinfo_filter_matches).
Local Notation get_preferred_device :=
  (osinfo_os_get_preferred_device osinfo_filter_matches).
Local Notation get_devices := (osinfo_os_get_devices osinfo_filter_matches).
Local Notation get_device_links :=
  (osinfo_os_get_device_links osinfo_filter_matches).

Lemma get_device_links_no_filter h a id priv platform :
  h !! a = Some (OsinfoOs id priv) →
  is_null platform || OSINFO_IS_PLATFORM h platform = true →
  get_device_links h (Some a) platform NULL
  = Return (Some (sequence priv (scope_of h platform))).
Proof.
  intros Ha Hp. rewrite get_device_links_ok; try done.
  - rewrite (filter_null_filter (osinfo_filter_matches h NULL)).
    unfold os_priv. simpl. by rewrite Ha.
  - unfold OSINFO_IS_OS. simpl. by rewrite Ha.
Qed.

(** [osinfo_os_new] makes, at an address that was not in use, an operating
    system with the given identifier and an empty index: every query on it
    comes back empty, its teardown has no association to release, and the
    instances that were there are untouched. *)
Theorem new_os_is_empty id h platform filter :
  is_null platform
  || OSINFO_IS_PLATFORM (osinfo_os_new id h).2 platform = true →
  OSINFO_IS_FILTER (osinfo_os_new id h).2 filter = true →
  let os := (osinfo_os_new id h).1 in
  let h' := (osinfo_os_new id h).2 in
  deref h os = None
  ∧ OSINFO_IS_OS h' os = true
  ∧ osinfo_entity_get_id h' os = id
  ∧ (∀ x o, h !! x = Some o → h' !! x = Some o)
  ∧ get_devices h' os platform NULL = Return (Some [])
  ∧ get_devices h' os platform filter = Return (Some [])
  ∧ get_device_links h' os platform NULL = Return (Some [])
  ∧ get_device_links h' os platform filter = Return (Some [])
  ∧ get_preferred_device_link h' os platform filter = Return NULL
  ∧ get_preferred_device h' os platform filter = Return NULL
  ∧ osinfo_os_finalize h' os = [].
Proof.
  intros Hp Hf os h'.
  assert (h' !! fresh (dom h) = Some (OsinfoOs id osinfo_os_init)) as Ha
    by apply lookup_insert_eq.
  assert (OSINFO_IS_OS h' os = true) as Hos
    by (unfold OSINFO_IS_OS; simpl; by rewrite Ha).
  assert (os_priv h' os = osinfo_os_init) as Hpriv
    by (unfold os_priv; simpl; by rewrite Ha).
  assert (is_null filter || OSINFO_IS_FILTER h' filter = true) as Hf'
    by (fold h' in Hf; rewrite Hf; apply orb_true_r).
  split; [apply fresh_unused|]. split; [done|].
  split; [unfold osinfo_entity_get_id; simpl; by rewrite Ha|].
  split.
  { intros x o Hx. unfold h'. simpl.
    rewrite lookup_insert_ne; [done|]. intros <-.
    by rewrite fresh_unused in Hx. }
  rewrite !get_devices_ok, !get_device_links_ok,
    get_preferred_device_link_ok, get_preferred_device_ok, Hpriv,
    sequence_init by done.
  unfold osinfo_os_finalize. rewrite Hpriv. simpl.
  unfold g_hash_table_unref. rewrite map_to_list_empty. done.
Qed.

(** Insertion followed by the list queries, for any scope: a call with
    valid arguments returns a link that is new, whose target is the device;
    the links returned for the call's scope are those returned before
    followed by the new link, and, when the entries of that sequence are
    device links, the devices returned are those returned before followed
    by the device. *)
Theorem add_device_then_query h a id priv platform dev :
  h !! a = Some (OsinfoOs id priv) →
  is_null platform || OSINFO_IS_PLATFORM h platform = true →
  OSINFO_IS_DEVICE h dev = true →
  (∀ link, link ∈ sequence priv (scope_of h platform) →
           OSINFO_IS_DEVICELINK h link = true) →
  ∃ f h' links devs,
    osinfo_os_add_device (Some a) platform dev h = (Return (Some f), h')
    ∧ h !! f = None
    ∧ osinfo_devicelink_get_target h' (Some f) = dev
    ∧ get_device_links h (Some a) platform NULL = Return (Some links)
    ∧ get_devices h (Some a) platform NULL = Return (Some devs)
    ∧ (Some f ∉ links)
    ∧ get_device_links h' (Some a) platform NULL
      = Return (Some (links ++ [Some f]))
    ∧ get_devices h' (Some a) platform NULL
      = Return (Some (devs ++ [dev])).
Proof.
  intros Ha Hp Hd Hlinks.
  pose proof (heap_grows_add_device (Some a) platform dev h) as Hg.
  rewrite (add_device_ok _ _ _ _ _ _ Ha Hp Hd) in Hg. simpl in Hg.
  set (f := fresh (dom h)) in *.
  set (h' := <[a := _]> _) in *.
  assert (h' !! a = Some (OsinfoOs id
            (priv_add priv (scope_of h platform) (Some f)))) as Ha'
    by apply lookup_insert_eq.
  assert (h' !! f = Some (OsinfoDeviceLink dev None)) as Hf.
  { unfold h'. rewrite lookup_insert_ne by (by eapply fresh_ne).
    apply lookup_insert_eq. }
  assert (is_null platform || OSINFO_IS_PLATFORM h' platform = true) as Hp'.
  { destruct platform as [p|]; [|done]. simpl in *.
    by apply (heap_grows_platform h h'). }
  exists f, h', (sequence priv (scope_of h platform)),
    (map (osinfo_devicelink_get_target h)
       (sequence priv (scope_of h platform))).
  split; [by apply add_device_ok|].
  split; [apply fresh_unused|].
  split; [unfold osinfo_devicelink_get_target; simpl; by rewrite Hf|].
  split; [by apply (get_device_links_no_filter h a id priv)|].
  split; [by apply (get_devices_no_filter _ h a id priv)|].
  split.
  { intros Hin%Hlinks. pose proof (fresh_unused h) as Hfh. fold f in Hfh.
    unfold OSINFO_IS_DEVICELINK in Hin. simpl in Hin.
    by rewrite Hfh in Hin. }
  rewrite (get_device_links_no_filter h' a id _ platform Ha' Hp').
  rewrite (get_devices_no_filter _ h' a id _ platform Ha' Hp').
  rewrite (heap_grows_scope h h') by done.
  rewrite sequence_priv_add, decide_True by done.
  split; [done|]. rewrite map_app. simpl.
  rewrite (map_target_grows h h') by done.
  unfold osinfo_devicelink_get_target at 2. simpl. by rewrite Hf.
Qed.




(** A call of [osinfo_os_add_device] does not change which arguments pass
    the checks: any call fails its checks after it exactly when it would
    have failed them before it, and the same pointers are filters. *)
Theorem add_device_keeps_checks os platform dev h os' platform' dev' filter :
  let h' := (osinfo_os_add_device os platform dev h).2 in
  ((osinfo_os_add_device os' platform' dev' h').1 = Critical NULL
   ↔ (osinfo_os_add_device os' platform' dev' h).1 = Critical NULL)
  ∧ OSINFO_IS_FILTER h' filter = OSINFO_IS_FILTER h filter.
Proof.
  intros h'.
  pose proof (same_entities_add_device os platform dev h) as He.
  fold h' in He. split.
  - rewrite !add_device_critical_iff.
    by rewrite (same_entities_precondition h h').
  - apply He.
Qed.

End OsGrowth.

(** * Teardown *)

Lemma foreach_free l : g_list_foreach l osinfo_device_link_free = l.
Proof. induction l as [|x l IH]; simpl; [done|]. by f_equal. Qed.

Lemma table_unref_cons (entry : string * GList) entries :
  flat_map (λ entry, osinfo_os_platform_devices_free entry.2)
    (entry :: entries)
  = entry.2 ++ flat_map (λ entry, osinfo_os_platform_devices_free entry.2)
                 entries.
Proof.
  simpl. unfold osinfo_os_platform_devices_free at 1.
  by rewrite foreach_free.
Qed.

Lemma elem_of_table_unref (entries : list (string * GList)) x :
  x ∈ flat_map (λ entry, osinfo_os_platform_devices_free entry.2) entries
  ↔ ∃ key l, (key, l) ∈ entries ∧ x ∈ l.
Proof.
  induction entries as [|[key l] entries IH].
  - simpl. split; [by intros ?%elem_of_nil|].
    by intros (? & ? & ?%elem_of_nil & _).
  - rewrite table_unref_cons, elem_of_app, IH. simpl. split.
    + intros [Hx | (key' & l' & Hin & Hx)].
      * exists key, l. split; [apply list_elem_of_here | done].
      * exists key', l'. split; [by apply list_elem_of_further | done].
    + intros (key' & l' & Hin & Hx).
      apply elem_of_cons in Hin as [[= -> ->] | Hin]; [by left|].
      right. by exists key', l'.
Qed.

Lemma NoDup_table_unref (entries : list (string * GList)) :
  NoDup entries.*1 →
  (∀ key l, (key, l) ∈ entries → NoDup l) →
  (∀ key1 l1 key2 l2 x,
     (key1, l1) ∈ entries → (key2, l2) ∈ entries →
     x ∈ l1 → x ∈ l2 → key1 = key2) →
  NoDup (flat_map (λ entry, osinfo_os_platform_devices_free entry.2) entries).
Proof.
  induction entries as [|[key l] entries IH]; intros Hkeys Hnd Hdisj.
  - constructor.
  - rewrite table_unref_cons. simpl in *.
    apply NoDup_cons in Hkeys as [Hkey Hkeys].
    apply NoDup_app. split; [|split].
    + apply (Hnd key), list_elem_of_here.
    + intros x Hx (key' & l' & Hin & Hx')%elem_of_table_unref.
      apply Hkey. apply list_elem_of_fmap. exists (key', l').
      split; [|done]. simpl.
      apply (Hdisj key l key' l' x);
        [apply list_elem_of_here | by apply list_elem_of_further | done | done].
    + apply IH; [done | |].
      * intros key' l' Hin. apply (Hnd key'). by apply list_elem_of_further.
      * intros key1 l1 key2 l2 x H1 H2.
        apply Hdisj; by apply list_elem_of_further.
Qed.

Lemma elem_of_finalize h a id priv x :
  h !! a = Some (OsinfoOs id priv) →
  x ∈ osinfo_os_finalize h (Some a) ↔ ∃ s, x ∈ sequence priv s.
Proof.
  intros Ha. unfold osinfo_os_finalize, os_priv, g_hash_table_unref.
  simpl. rewrite Ha, foreach_free, elem_of_app, elem_of_table_unref. split.
  - intros [Hx | (key & l & Hin%elem_of_map_to_list & Hx)].
    + by exists None.
    + exists (Some key). simpl. unfold g_hash_table_lookup. by rewrite Hin.
  - intros [[key|] Hx]; [|by left]. right.
    simpl in Hx. unfold g_hash_table_lookup in Hx.
    destruct (platforms priv !! key) as [l|] eqn:E.
    + exists key, l. split; [by apply elem_of_map_to_list | done].
    + by apply elem_of_nil in Hx.
Qed.

Lemma NoDup_finalize h a id priv :
  index_ok h priv →
  h !! a = Some (OsinfoOs id priv) →
  NoDup (osinfo_os_finalize h (Some a)).
Proof.
  intros Hok Ha. unfold osinfo_os_finalize, os_priv, g_hash_table_unref.
  simpl. rewrite Ha, foreach_free.
  assert (∀ key l, (key, l) ∈ map_to_list (platforms priv) →
                   sequence priv (Some key) = l) as Hseq.
  { intros key l Hin%elem_of_map_to_list. simpl.
    unfold g_hash_table_lookup. by rewrite Hin. }
  apply NoDup_app. split; [|split].
  - apply (index_nodup h priv Hok None).
  - intros x Hx (key & l & Hin & Hx')%elem_of_table_unref.
    rewrite <- (Hseq key l Hin) in Hx'.
    by pose proof (index_disjoint h priv Hok None (Some key) x Hx Hx').
  - apply NoDup_table_unref.
    + apply NoDup_fst_map_to_list.
    + intros key l Hin. rewrite <- (Hseq key l Hin).
      apply (index_nodup h priv Hok).
    + intros key1 l1 key2 l2 x H1 H2 Hx1 Hx2.
      rewrite <- (Hseq key1 l1 H1) in Hx1.
      rewrite <- (Hseq key2 l2 H2) in Hx2.
      pose proof (index_disjoint h priv Hok _ _ x Hx1 Hx2). congruence.
Qed.

Lemma elem_of_returned log x :
  x ∈ returned log ↔ ∃ s, x ∈ returned_for s log.
Proof.
  unfold returned, returned_for. split.
  - intros ([s r] & Hin & Hr)%list_elem_of_omap. exists s.
    apply list_elem_of_omap. exists (s, r). split; [done|].
    unfold returned_in. simpl in *. destruct r; [done|].
    by rewrite decide_True.
  - intros (s & ([s' r] & Hin & Hr)%list_elem_of_omap).
    apply list_elem_of_omap. exists (s', r). split; [done|].
    unfold returned_in in Hr. simpl in *. destruct r; [done|].
    by case_decide.
Qed.

(** Teardown of an operating system of a reachable heap releases every
    association of its index exactly once: the pointers [osinfo_os_finalize]
    passes to [g_object_unref] are the entries of the default sequence and
    of the per-platform sequences, none of them twice, each a device
    link. *)
Theorem finalize_releases_each_link_once h a id priv :
  reachable h →
  h !! a = Some (OsinfoOs id priv) →
  NoDup (osinfo_os_finalize h (Some a))
  ∧ (∀ link, link ∈ osinfo_os_finalize h (Some a)
             ↔ ∃ s, link ∈ sequence priv s)
  ∧ Forall (λ link, OSINFO_IS_DEVICELINK h link = true)
      (osinfo_os_finalize h (Some a)).
Proof.
  intros Hr Ha. pose proof (reachable_heap_ok h Hr a id priv Ha) as Hok.
  split; [by eapply NoDup_finalize|].
  split; [intros link; by eapply elem_of_finalize|].
  apply Forall_forall. intros link Hin.
  apply (elem_of_finalize h a id priv link Ha) in Hin as [s Hin].
  by apply (index_links h priv Hok s).
Qed.

(** From creation to teardown: after any run of [osinfo_os_add_device]
    calls on an operating system that had an empty index, teardown releases
    exactly the links the calls returned, each once. *)
Theorem finalize_releases_what_was_added h a id calls log h' :
  reachable h →
  h !! a = Some (OsinfoOs id osinfo_os_init) →
  add_devices (Some a) calls h = (log, h') →
  osinfo_os_finalize h' (Some a) ≡ₚ returned log.
Proof.
  intros Hr Ha Hrun.
  destruct (add_devices_spec _ _ _ _ _ _ _ Ha Hrun)
    as (_ & _ & _ & Hnd & priv' & Ha' & Hseq).
  assert (reachable h') as Hr'.
  { eapply reachable_steps; [exact Hr|].
    replace h' with (add_devices (Some a) calls h).2 by (by rewrite Hrun).
    apply add_devices_steps. }
  pose proof (reachable_heap_ok h' Hr' a id priv' Ha') as Hok.
  apply NoDup_Permutation; [by eapply NoDup_finalize | done |].
  intros x. rewrite (elem_of_finalize h' a id priv' x Ha'), elem_of_returned.
  split; intros [s Hx]; exists s.
  - rewrite Hseq, sequence_init in Hx. done.
  - by rewrite Hseq, sequence_init.
Qed.

(** * Runs of insertions *)

Lemma returned_targets_scoped h h' os s calls log :
  Forall2 (call_entry h h' os) calls log →
  Forall (λ call, add_device_precondition h os call = true) calls →
  map (osinfo_devicelink_get_target h') (returned_for s log)
  = (List.filter (λ call, bool_decide (scope_of h call.1 = s)) calls).*2.
Proof.
  induction 1 as [|call entry calls log Hce _ IH]; intros Hcalls; [done|].
  apply Forall_cons in Hcalls as [Hpre Hcalls].
  rewrite returned_for_cons. unfold returned_in, call_entry in *. simpl.
  destruct entry.2 as [v|link] eqn:E2.
  - destruct Hce as [_ Hce]. congruence.
  - destruct Hce as (_ & -> & f & -> & _ & Hf).
    case_decide.
    + rewrite bool_decide_eq_true_2 by done. simpl. f_equal; [|by apply IH].
      unfold osinfo_devicelink_get_target. simpl. by rewrite Hf.
    + rewrite bool_decide_eq_false_2 by done. by apply IH.
Qed.

Section OsSequences.

Variable osinfo_filter_matches : heap → gpointer → gpointer → bool.

Local Notation get_devices := (osinfo_os_get_devices osinfo_filter_matches).
Local Notation get_device_links :=
  (osinfo_os_get_device_links osinfo_filter_matches).

Lemma get_devices_after_run h a id priv calls log h' platform :
  index_ok h priv →
  h !! a = Some (OsinfoOs id priv) →
  Forall (λ call, add_device_precondition h (Some a) call = true) calls →
  add_devices (Some a) calls h = (log, h') →
  is_null platform || OSINFO_IS_PLATFORM h platform = true →
  get_device_links h' (Some a) platform NULL
  = Return (Some (sequence priv (scope_of h platform)
                  ++ returned_for (scope_of h platform) log))
  ∧ get_devices h' (Some a) platform NULL
    = Return (Some (map (osinfo_devicelink_get_target h)
                      (sequence priv (scope_of h platform))
                    ++ (List.filter
                          (λ call, bool_decide
                             (scope_of h call.1 = scope_of h platform))
                          calls).*2)).
Proof.
  intros Hok Ha Hcalls Hrun Hp.
  destruct (add_devices_spec _ _ _ _ _ _ _ Ha Hrun)
    as (Hg & He & Hall & _ & priv' & Ha' & Hseq).
  assert (is_null platform || OSINFO_IS_PLATFORM h' platform = true) as Hp'
    by (destruct (He platform) as (_ & -> & _); done).
  rewrite (get_device_links_no_filter _ h' a id priv' platform Ha' Hp').
  rewrite (get_devices_no_filter _ h' a id priv' platform Ha' Hp').
  rewrite (same_entities_scope h h' platform He), Hseq.
  split; [done|]. rewrite map_app. f_equal. f_equal. f_equal.
  - apply map_target_grows; [done|]. intros link.
    apply (index_links h priv Hok).
  - by apply (returned_targets_scoped h h' (Some a)).
Qed.

(** After any run of [osinfo_os_add_device] calls with valid arguments on
    an operating system of a reachable heap, the list queries without
    filter return, for any scope, what they returned before the run
    followed by what the calls for that scope added, in call order: the
    links those calls returned, and their devices. *)
Theorem queries_after_run h a id priv calls log h' platform :
  reachable h →
  h !! a = Some (OsinfoOs id priv) →
  Forall (λ call,
            (is_null call.1 || OSINFO_IS_PLATFORM h call.1 = true)
            ∧ OSINFO_IS_DEVICE h call.2 = true) calls →
  add_devices (Some a) calls h = (log, h') →
  is_null platform || OSINFO_IS_PLATFORM h platform = true →
  ∃ links devs,
    get_device_links h (Some a) platform NULL = Return (Some links)
    ∧ get_devices h (Some a) platform NULL = Return (Some devs)
    ∧ get_device_links h' (Some a) platform NULL
      = Return (Some (links ++ returned_for (scope_of h platform) log))
    ∧ get_devices h' (Some a) platform NULL
      = Return (Some (devs ++
          (List.filter
             (λ call, bool_decide (scope_of h call.1 = scope_of h platform))
             calls).*2)).
Proof.
  intros Hr Ha Hcalls Hrun Hp.
  pose proof (reachable_heap_ok h Hr a id priv Ha) as Hok.
  eexists _, _.
  split; [by apply (get_device_links_no_filter _ h a id priv)|].
  split; [by apply (get_devices_no_filter _ h a id priv)|].
  apply (get_devices_after_run h a id priv); try done.
  eapply Forall_impl; [exact Hcalls|]. intros [p d] [Hcp Hcd].
  unfold add_device_precondition, OSINFO_IS_OS. simpl in *.
  by rewrite Ha, Hcp, Hcd.
Qed.

(** Two insertions for different scopes commute as far as the devices go:
    in either order, [osinfo_os_get_devices] without filter returns the
    same list for every scope. *)
Theorem add_device_calls_commute h a id priv platformA platformB d1 d2
    platform :
  reachable h →
  h !! a = Some (OsinfoOs id priv) →
  is_null platformA || OSINFO_IS_PLATFORM h platformA = true →
  is_null platformB || OSINFO_IS_PLATFORM h platformB = true →
  scope_of h platformA ≠ scope_of h platformB →
  OSINFO_IS_DEVICE h d1 = true →
  OSINFO_IS_DEVICE h d2 = true →
  is_null platform || OSINFO_IS_PLATFORM h platform = true →
  get_devices
    (osinfo_os_add_device (Some a) platformB d2
       (osinfo_os_add_device (Some a) platformA d1 h).2).2
    (Some a) platform NULL
  = get_devices
      (osinfo_os_add_device (Some a) platformA d1
         (osinfo_os_add_device (Some a) platformB d2 h).2).2
      (Some a) platform NULL.
Proof.
  intros Hr Ha HA HB Hne Hd1 Hd2 Hp.
  pose proof (reachable_heap_ok h Hr a id priv Ha) as Hok.
  assert (∀ p d, is_null p || OSINFO_IS_PLATFORM h p = true →
                 OSINFO_IS_DEVICE h d = true →
                 add_device_precondition h (Some a) (p, d) = true) as Hpre.
  { intros p d Hcp Hcd. unfold add_device_precondition, OSINFO_IS_OS.
    simpl. by rewrite Ha, Hcp, Hcd. }
  assert (∀ p1 e1 p2 e2,
    (osinfo_os_add_device (Some a) p2 e2
       (osinfo_os_add_device (Some a) p1 e1 h).2).2
    = (add_devices (Some a) [(p1, e1); (p2, e2)] h).2) as Hrun.
  { intros p1 e1 p2 e2. simpl.
    destruct (osinfo_os_add_device (Some a) p1 e1 h) as [r1 h1]. simpl.
    by destruct (osinfo_os_add_device (Some a) p2 e2 h1) as [r2 h2]. }
  rewrite !Hrun.
  assert (∀ calls,
    Forall (λ call, add_device_precondition h (Some a) call = true) calls →
    get_devices (add_devices (Some a) calls h).2 (Some a) platform NULL
    = Return (Some (map (osinfo_devicelink_get_target h)
                      (sequence priv (scope_of h platform))
                    ++ (List.filter
                          (λ call, bool_decide
                             (scope_of h call.1 = scope_of h platform))
                          calls).*2))) as Hafter.
  { intros calls Hcalls.
    apply (get_devices_after_run h a id priv calls
             (add_devices (Some a) calls h).1
             (add_devices (Some a) calls h).2 platform Hok Ha Hcalls
             (surjective_pairing _) Hp). }
  rewrite !Hafter by (repeat constructor; by apply Hpre).
  simpl. repeat case_bool_decide; try done. congruence.
Qed.

End OsSequences.

(** * The further theorems at concrete inputs *)



Lemma preferred_device_is_first_device_witness :
  OSINFO_IS_OS World.default2 World.fedora = true
  ∧ is_null NULL || OSINFO_IS_PLATFORM World.default2 NULL = true
  ∧ OSINFO_IS_FILTER World.default2 World.only_e1000 = true
  ∧ ∃ devs,
      osinfo_os_get_devices constraints_match World.default2 World.fedora
        NULL World.only_e1000 = Return (Some devs)
      ∧ osinfo_os_get_preferred_device constraints_match World.default2
          World.fedora NULL World.only_e1000 = Return (hd NULL devs).
Proof.
  assert (OSINFO_IS_OS World.default2 World.fedora = true) as H1
    by (vm_compute; reflexivity).
  assert (is_null NULL || OSINFO_IS_PLATFORM World.default2 NULL = true)
    as H2 by reflexivity.
  assert (OSINFO_IS_FILTER World.default2 World.only_e1000 = true) as H3
    by (vm_compute; reflexivity).
  repeat (split; [assumption|]).
  destruct (preferred_device_is_first_device constraints_match
              World.default2 World.fedora NULL World.only_e1000 H1 H2 H3)
    as (devs & links & preferred & Hd & _ & _ & Hp & _).
  exists devs. by split.
Defined.

Lemma filter_only_narrows_witness :
  OSINFO_IS_OS World.default2 World.fedora = true
  ∧ is_null NULL || OSINFO_IS_PLATFORM World.default2 NULL = true
  ∧ is_null World.only_e1000
    || OSINFO_IS_FILTER World.default2 World.only_e1000 = true
  ∧ ∃ devs all_devs,
      osinfo_os_get_devices constraints_match World.default2 World.fedora
        NULL World.only_e1000 = Return (Some devs)
      ∧ osinfo_os_get_devices constraints_match World.default2 World.fedora
          NULL NULL = Return (Some all_devs)
      ∧ devs `sublist_of` all_devs.
Proof.
  assert (OSINFO_IS_OS World.default2 World.fedora = true) as H1
    by (vm_compute; reflexivity).
  assert (is_null NULL || OSINFO_IS_PLATFORM World.default2 NULL = true)
    as H2 by reflexivity.
  assert (is_null World.only_e1000
          || OSINFO_IS_FILTER World.default2 World.only_e1000 = true) as H3
    by (vm_compute; reflexivity).
  repeat (split; [assumption|]).
  destruct (filter_only_narrows constraints_match World.default2
              World.fedora NULL World.only_e1000 H1 H2 H3)
    as (devs & all_devs & _ & _ & Hd & Ha & Hs & _).
  exists devs, all_devs. by repeat split.
Defined.

Lemma platforms_with_same_id_witness :
  OSINFO_IS_PLATFORM World2.twin World.kvm = true
  ∧ OSINFO_IS_PLATFORM World2.twin World2.kvm_twin = true
  ∧ osinfo_entity_get_id World2.twin World.kvm
    = osinfo_entity_get_id World2.twin World2.kvm_twin
  ∧ osinfo_os_get_devices constraints_match World2.twin World.fedora
      World.kvm NULL
    = osinfo_os_get_devices constraints_match World2.twin World.fedora
        World2.kvm_twin NULL.
Proof.
  assert (OSINFO_IS_PLATFORM World2.twin World.kvm = true) as H1
    by (vm_compute; reflexivity).
  assert (OSINFO_IS_PLATFORM World2.twin World2.kvm_twin = true) as H2
    by (vm_compute; reflexivity).
  assert (osinfo_entity_get_id World2.twin World.kvm
          = osinfo_entity_get_id World2.twin World2.kvm_twin) as H3
    by (vm_compute; reflexivity).
  repeat (split; [assumption|]).
  exact (proj1
    (platforms_with_same_id constraints_match World2.twin World.fedora
       World.kvm World2.kvm_twin World.virtio NULL H1 H2 H3)).
Defined.

Lemma new_os_is_empty_witness :
  is_null World.kvm
  || OSINFO_IS_PLATFORM (osinfo_os_new "debian" World2.twin).2 World.kvm
     = true
  ∧ OSINFO_IS_FILTER (osinfo_os_new "debian" World2.twin).2
      World.only_e1000 = true
  ∧ osinfo_os_get_devices constraints_match
      (osinfo_os_new "debian" World2.twin).2
      (osinfo_os_new "debian" World2.twin).1 World.kvm NULL
    = Return (Some []).
Proof.
  assert (is_null World.kvm
          || OSINFO_IS_PLATFORM (osinfo_os_new "debian" World2.twin).2
               World.kvm = true) as H1 by (vm_compute; reflexivity).
  assert (OSINFO_IS_FILTER (osinfo_os_new "debian" World2.twin).2
            World.only_e1000 = true) as H2 by (vm_compute; reflexivity).
  repeat (split; [assumption|]).
  exact (proj1 (proj2 (proj2 (proj2 (proj2
    (new_os_is_empty constraints_match "debian" World2.twin World.kvm
       World.only_e1000 H1 H2)))))).
Defined.

Lemma add_device_then_query_witness :
  World.kvm1 !! 1%positive
  = Some (OsinfoOs "fedora" (os_priv World.kvm1 World.fedora))
  ∧ is_null World.kvm || OSINFO_IS_PLATFORM World.kvm1 World.kvm = true
  ∧ OSINFO_IS_DEVICE World.kvm1 World.e1000 = true
  ∧ (∀ link,
       link ∈ sequence (os_priv World.kvm1 World.fedora)
                (scope_of World.kvm1 World.kvm) →
       OSINFO_IS_DEVICELINK World.kvm1 link = true)
  ∧ ∃ f h' devs,
      osinfo_os_add_device World.fedora World.kvm World.e1000 World.kvm1
      = (Return (Some f), h')
      ∧ osinfo_os_get_devices constraints_match World.kvm1 World.fedora
          World.kvm NULL = Return (Some devs)
      ∧ osinfo_os_get_devices constraints_match h' World.fedora
          World.kvm NULL = Return (Some (devs ++ [World.e1000])).
Proof.
  assert (World.kvm1 !! 1%positive
          = Some (OsinfoOs "fedora" (os_priv World.kvm1 World.fedora)))
    as H1 by (vm_compute; reflexivity).
  assert (is_null World.kvm || OSINFO_IS_PLATFORM World.kvm1 World.kvm
          = true) as H2 by (vm_compute; reflexivity).
  assert (OSINFO_IS_DEVICE World.kvm1 World.e1000 = true) as H3
    by (vm_compute; reflexivity).
  assert (∀ link,
       link ∈ sequence (os_priv World.kvm1 World.fedora)
                (scope_of World.kvm1 World.kvm) →
       OSINFO_IS_DEVICELINK World.kvm1 link = true) as H4.
  { assert (sequence (os_priv World.kvm1 World.fedora)
              (scope_of World.kvm1 World.kvm) = [Some 7%positive]) as ->
      by (vm_compute; reflexivity).
    intros link ->%list_elem_of_singleton. vm_compute. reflexivity. }
  repeat (split; [assumption|]).
  destruct (add_device_then_query constraints_match World.kvm1 1%positive
              "fedora" (os_priv World.kvm1 World.fedora) World.kvm
              World.e1000 H1 H2 H3 H4)
    as (f & h' & links & devs & Hadd & _ & _ & _ & Hd & _ & _ & Hd').
  exists f, h', devs. by repeat split.
Defined.




Lemma three_reachable : reachable World2.three.
Proof.
  eapply reachable_steps; [exact start_reachable|].
  exact (add_devices_steps World.fedora World2.calls World.start).
Qed.

Lemma finalize_releases_each_link_once_witness :
  reachable World2.three
  ∧ World2.three !! 1%positive
    = Some (OsinfoOs "fedora" (os_priv World2.three World.fedora))
  ∧ NoDup (osinfo_os_finalize World2.three World.fedora).
Proof.
  assert (World2.three !! 1%positive
          = Some (OsinfoOs "fedora" (os_priv World2.three World.fedora)))
    as H1 by (vm_compute; reflexivity).
  split; [exact three_reachable|]. repeat (split; [assumption|]).
  exact (proj1
    (finalize_releases_each_link_once World2.three 1%positive "fedora"
       (os_priv World2.three World.fedora) three_reachable H1)).
Defined.

Lemma finalize_releases_what_was_added_witness :
  reachable World.start
  ∧ World.start !! 1%positive = Some (OsinfoOs "fedora" osinfo_os_init)
  ∧ osinfo_os_finalize World2.three World.fedora
    ≡ₚ returned (add_devices World.fedora World2.calls World.start).1.
Proof.
  assert (World.start !! 1%positive
          = Some (OsinfoOs "fedora" osinfo_os_init)) as H1
    by (vm_compute; reflexivity).
  split; [exact start_reachable|]. repeat (split; [assumption|]).
  exact (finalize_releases_what_was_added World.start 1%positive "fedora"
           World2.calls _ _ start_reachable H1 (surjective_pairing _)).
Defined.

Lemma queries_after_run_witness :
  reachable World.kvm1
  ∧ World.kvm1 !! 1%positive
    = Some (OsinfoOs "fedora" (os_priv World.kvm1 World.fedora))
  ∧ Forall (λ call,
      (is_null call.1 || OSINFO_IS_PLATFORM World.kvm1 call.1 = true)
      ∧ OSINFO_IS_DEVICE World.kvm1 call.2 = true) World2.calls
  ∧ is_null World.kvm || OSINFO_IS_PLATFORM World.kvm1 World.kvm = true
  ∧ ∃ devs,
      osinfo_os_get_devices constraints_match World.kvm1 World.fedora
        World.kvm NULL = Return (Some devs)
      ∧ osinfo_os_get_devices constraints_match
          (add_devices World.fedora World2.calls World.kvm1).2 World.fedora
          World.kvm NULL
        = Return (Some (devs ++
            (List.filter
               (λ call, bool_decide (scope_of World.kvm1 call.1
                                     = scope_of World.kvm1 World.kvm))
               World2.calls).*2)).
Proof.
  assert (World.kvm1 !! 1%positive
          = Some (OsinfoOs "fedora" (os_priv World.kvm1 World.fedora)))
    as H1 by (vm_compute; reflexivity).
  assert (Forall (λ call,
      (is_null call.1 || OSINFO_IS_PLATFORM World.kvm1 call.1 = true)
      ∧ OSINFO_IS_DEVICE World.kvm1 call.2 = true) World2.calls) as H2
    by (repeat constructor; vm_compute; reflexivity).
  assert (is_null World.kvm || OSINFO_IS_PLATFORM World.kvm1 World.kvm
          = true) as H3 by (vm_compute; reflexivity).
  split; [exact kvm1_reachable|]. repeat (split; [assumption|]).
  destruct (queries_after_run constraints_match World.kvm1 1%positive
              "fedora" (os_priv World.kvm1 World.fedora) World2.calls _ _
              World.kvm kvm1_reachable H1 H2 (surjective_pairing _) H3)
    as (links & devs & _ & Hd & _ & Hd').
  exists devs. by split.
Defined.

Lemma add_device_calls_commute_witness :
  reachable World.kvm1
  ∧ World.kvm1 !! 1%positive
    = Some (OsinfoOs "fedora" (os_priv World.kvm1 World.fedora))
  ∧ is_null World.kvm || OSINFO_IS_PLATFORM World.kvm1 World.kvm = true
  ∧ is_null NULL || OSINFO_IS_PLATFORM World.kvm1 NULL = true
  ∧ scope_of World.kvm1 World.kvm ≠ scope_of World.kvm1 NULL
  ∧ OSINFO_IS_DEVICE World.kvm1 World.virtio = true
  ∧ OSINFO_IS_DEVICE World.kvm1 World.e1000 = true
  ∧ osinfo_os_get_devices constraints_match
      (osinfo_os_add_device World.fedora NULL World.e1000
         (osinfo_os_add_device World.fedora World.kvm World.virtio
            World.kvm1).2).2
      World.fedora World.kvm NULL
    = osinfo_os_get_devices constraints_match
        (osinfo_os_add_device World.fedora World.kvm World.virtio
           (osinfo_os_add_device World.fedora NULL World.e1000
              World.kvm1).2).2
        World.fedora World.kvm NULL.
Proof.
  assert (World.kvm1 !! 1%positive
          = Some (OsinfoOs "fedora" (os_priv World.kvm1 World.fedora)))
    as H1 by (vm_compute; reflexivity).
  assert (is_null World.kvm || OSINFO_IS_PLATFORM World.kvm1 World.kvm
          = true) as H2 by (vm_compute; reflexivity).
  assert (is_null NULL || OSINFO_IS_PLATFORM World.kvm1 NULL = true) as H3
    by reflexivity.
  assert (scope_of World.kvm1 World.kvm ≠ scope_of World.kvm1 NULL) as H4
    by discriminate.
  assert (OSINFO_IS_DEVICE World.kvm1 World.virtio = true) as H5
    by (vm_compute; reflexivity).
  assert (OSINFO_IS_DEVICE World.kvm1 World.e1000 = true) as H6
    by (vm_compute; reflexivity).
  split; [exact kvm1_reachable|]. repeat (split; [assumption|]).
  exact (add_device_calls_commute constraints_match World.kvm1 1%positive
           "fedora" (os_priv World.kvm1 World.fedora) World.kvm NULL
           World.virtio World.e1000 World.kvm kvm1_reachable H1 H2 H3 H4
           H5 H6 H2).
Defined.
